(** * tap-wordpress-reviews: the review cursor, the field extractor and the
    multi-plugin aggregator, embedded from the Python sources

    - [WordpressReview]      : src/tap_wordpress_reviews/wordpress_review.py
    - [WordpressReviewsList] : src/tap_wordpress_reviews/wordpress_reviews_list.py
    - [WordpressReviews]     : src/tap_wordpress_reviews/wordpress_reviews.py

    Python objects are records, attribute assignment is a record update, and a
    method that mutates [self] or may raise is a computation in a small
    state-and-exception monad: the state that a raising call leaves behind is
    kept, as it is in Python. *)

From Stdlib Require Import Ascii String ZArith Lia.
From stdpp Require Import base strings list gmap pretty.

Set Warnings "-register-all".

Local Open Scope string_scope.
Local Open Scope Z_scope.

(** ** Python exceptions and the state-and-exception monad *)

Inductive exn : Type :=
  | StopIteration
  | ConnectionError (status : Z)
  | AttributeError
  | TypeError
  | IndexError
  | KeyError
  | ValueError
  | OverflowError       (* a date the local time zone cannot convert *)
  | TransportError.     (* the request got no response at all *)

Inductive result (A : Type) : Type :=
  | Ok (a : A)
  | Raise (e : exn).
Arguments Ok {A} a.
Arguments Raise {A} e.

(** A method of an object of type [S]: it reads and updates [self] and either
    returns a value or raises. *)
Definition M (S A : Type) : Type := S -> result A * S.

Definition ret {S A} (a : A) : M S A := fun s => (Ok a, s).
Definition raise {S A} (e : exn) : M S A := fun s => (Raise e, s).
Definition bind {S A B} (c : M S A) (k : A -> M S B) : M S B :=
  fun s => match c s with
           | (Ok a, s') => k a s'
           | (Raise e, s') => (Raise e, s')
           end.
Definition get_self {S} : M S S := fun s => (Ok s, s).
Definition assign {S} (f : S -> S) : M S unit := fun s => (Ok tt, f s).
Definition lift {S A} (r : result A) : M S A := fun s => (r, s).

Notation "x <~ c ;; k" := (bind c (fun x => k))
  (at level 100, c at next level, right associativity).
Notation "c ;;; k" := (bind c (fun _ => k))
  (at level 100, right associativity).

(** ** Python built-ins used by the sources *)

Module Py.

(** Values of the mappings that [to_dict] and the reply extractor build. *)
Inductive value : Type :=
  | VNone
  | VStr (s : string)
  | VInt (z : Z)
  | VList (l : list value)
  | VDict (d : list (string * value)).

(** A [dict] with string keys, in insertion order. *)
Definition dict (V : Type) : Type := list (string * V).

Fixpoint dict_get {V} (k : string) (d : dict V) : option V :=
  match d with
  | [] => None
  | (k', v) :: d' => if decide (k = k') then Some v else dict_get k d'
  end.

(** [d[k] = v]: replaces the value of a present key in place, appends a new
    key at the end. *)
Fixpoint dict_set {V} (k : string) (v : V) (d : dict V) : dict V :=
  match d with
  | [] => [(k, v)]
  | (k', v') :: d' =>
      if decide (k = k') then (k', v) :: d' else (k', v') :: dict_set k v d'
  end.

Definition keys {V} (d : dict V) : list string := d.*1.

Definition len {A} (l : list A) : Z := Z.of_nat (length l).

(** The position [l[i]] denotes: a negative [i] counts from the end;
    [None] is Python's IndexError. *)
Definition index (n : Z) (i : Z) : option nat :=
  let j := if i <? 0 then i + n else i in
  if (j <? 0) || (n <=? j) then None else Some (Z.to_nat j).

Definition getitem {A} (l : list A) (i : Z) : result A :=
  match index (len l) i with
  | None => Raise IndexError
  | Some j => match l !! j with Some x => Ok x | None => Raise IndexError end
  end.

(** [math.ceil(number / d)] for a positive [d]. Python divides in double
    precision first; for the indices a cursor reaches (far below 2^53)
    that is the exact ceiling computed here. *)
Definition ceil_div (number d : Z) : Z := - ((- number) / d).

(** [range(0, n)] has [Z.to_nat n] elements (none for a negative [n]). *)
Definition range_len (n : Z) : nat := Z.to_nat n.

(** [sep.join(parts)] *)
Fixpoint join (sep : string) (parts : list string) : string :=
  match parts with
  | [] => ""
  | [s] => s
  | s :: rest => s +:+ sep +:+ join sep rest
  end.

(** [s.partition(' ')[0]]: the part of [s] before its first space. *)
Fixpoint before_space (s : string) : string :=
  match s with
  | "" => ""
  | String c s' => if decide (c = " "%char) then "" else String c (before_space s')
  end.

Definition is_digit (c : ascii) : bool :=
  match Ascii.is_nat c with Some _ => true | None => false end.

Definition digit_value (c : ascii) : Z :=
  match Ascii.is_nat c with Some d => Z.of_nat d | None => 0 end.

(** White space that [int] and [str.strip] skip, among the ASCII
    characters. *)
Definition is_space (c : ascii) : bool :=
  let n := nat_of_ascii c in
  ((9 <=? n) && (n <=? 13) || (28 <=? n) && (n <=? 32))%nat.

Fixpoint lstrip (s : string) : string :=
  match s with
  | "" => ""
  | String c s' => if is_space c then lstrip s' else s
  end.

Definition strip (s : string) : string :=
  String.rev (lstrip (String.rev (lstrip s))).

(** The digits of a decimal literal: one or more digits, single
    underscores allowed between two digits. *)
Fixpoint digits (acc : Z) (after_digit : bool) (s : string) : option Z :=
  match s with
  | "" => if after_digit then Some acc else None
  | String c s' =>
      if is_digit c then digits (10 * acc + digit_value c) true s'
      else if decide (c = "_"%char) then
        if after_digit then digits acc false s' else None
      else None
  end.

(** [int(s)] for a string [s], base 10. *)
Definition int (s : string) : result Z :=
  let body := strip s in
  let signed :=
    match body with
    | String "-" rest => option_map Z.opp (digits 0 false rest)
    | String "+" rest => digits 0 false rest
    | _ => digits 0 false body
    end in
  match signed with
  | Some z => Ok z
  | None => Raise ValueError
  end.

(** [s[0]] for a value that may be [None]. *)
Definition first_char (s : option string) : result string :=
  match s with
  | None => Raise TypeError
  | Some "" => Raise IndexError
  | Some (String c _) => Ok (String c "")
  end.

End Py.

(** ** The document tree that BeautifulSoup's html.parser builds *)

Module bs4.

Inductive node : Type :=
  | NavigableString (s : string)
  | Tag (name : string) (attrs : list (string * string)) (contents : list node).

(** All nodes below [n], in document order. *)
Fixpoint descendants (n : node) : list node :=
  match n with
  | NavigableString _ => []
  | Tag _ _ cs => flat_map (fun c => c :: descendants c) cs
  end.

(** [tag.get(key)] *)
Definition get (key : string) (n : node) : option string :=
  match n with
  | NavigableString _ => None
  | Tag _ attrs _ => Py.dict_get key attrs
  end.

(** [tag.get(key, default)] *)
Definition get_default (key default : string) (n : node) : string :=
  from_option id default (get key n).

(** [tag.get_text()]: the strings below the tag, concatenated. *)
Fixpoint get_text (n : node) : string :=
  match n with
  | NavigableString s => s
  | Tag _ _ cs => Py.join "" (map get_text cs)
  end.

(** The class filter: [c] is one of the white-space separated classes of
    the tag, or the whole list of them joined by single spaces. *)
Definition has_class (c : string) (n : node) : bool :=
  match get "class" n with
  | None => false
  | Some v =>
      let cs := String.words v in
      bool_decide (c ∈ cs) || bool_decide (c = Py.join " " cs)
  end.

(** Does [n] pass the filter [find(name, class_=cls)]? *)
Definition matches (name : string) (cls : option string) (n : node) : bool :=
  match n with
  | NavigableString _ => false
  | Tag nm _ _ =>
      bool_decide (nm = name) &&
      match cls with None => true | Some c => has_class c n end
  end.

Definition find_all (name : string) (cls : option string) (n : node) : list node :=
  filter (fun d => matches name cls d = true) (descendants n).

Definition find (name : string) (cls : option string) (n : node) : option node :=
  head (find_all name cls n).

End bs4.

(** ** What the program takes from outside: the network and two libraries *)

Module httpx.
(** A response; [text] is the body, given as the tree that
    [BeautifulSoup(text, 'html.parser')] builds from it. *)
Record Response : Type := { status_code : Z; text : bs4.node }.
End httpx.

Record World : Type := {
  (** [httpx.Client(http2=False).get(url)]; [None] when the transport
      itself fails and there is no response *)
  http_get : string -> option httpx.Response;
  (** [urllib.parse.urlparse(url).path] *)
  urlparse_path : option string -> string;
  (** values of [datetime.datetime] *)
  datetime : Type;
  (** [datetime.datetime.strptime(text, format)]; [None] when it raises
      ValueError, which is what it does with a text that does not match the
      format *)
  strptime : string -> string -> option datetime;
  (** [d.astimezone(datetime.timezone.utc)], which reads the local time zone
      of the machine; [None] when the date is out of its range *)
  astimezone_utc : datetime -> option datetime;
  (** [d.isoformat()] *)
  isoformat : datetime -> string
}.

(** [client.get(url)] *)
Definition client_get (W : World) (url : string) : result httpx.Response :=
  match http_get W url with
  | Some response => Ok response
  | None => Raise TransportError
  end.

Definition SCHEME : string := "https://".
Definition BASE_URL : string := "wordpress.org".
Definition CONNECTION_OK : Z := 200.
Definition DATE_FORMAT : string := "%B %d, %Y at %I:%M %p".

(** ** wordpress_review.py *)

Module WordpressReview.

Import bs4.

(** A reply mapping: up to three keys, [author], [comment] and [date]. *)
Definition comment : Type := Py.dict Py.value.

Record t : Type := mk {
  path : string;
  loaded : option bool;          (* [None]: the attribute is not yet set *)
  title : option string;
  date : option string;
  tags : option (list string);
  rating : option Z;
  author : option string;
  text : option string;
  replies : option Z;
  participants : option Z;
  comments : option (list comment);
  support : option string;
  support_comment : option string
}.

(** Attribute assignments. *)
Definition set_loaded v (r : t) : t :=
  let 'mk a _ c d e f g h i j k l m := r in mk a v c d e f g h i j k l m.
Definition set_title v (r : t) : t :=
  let 'mk a b _ d e f g h i j k l m := r in mk a b v d e f g h i j k l m.
Definition set_date v (r : t) : t :=
  let 'mk a b c _ e f g h i j k l m := r in mk a b c v e f g h i j k l m.
Definition set_tags v (r : t) : t :=
  let 'mk a b c d _ f g h i j k l m := r in mk a b c d v f g h i j k l m.
Definition set_rating v (r : t) : t :=
  let 'mk a b c d e _ g h i j k l m := r in mk a b c d e v g h i j k l m.
Definition set_author v (r : t) : t :=
  let 'mk a b c d e f _ h i j k l m := r in mk a b c d e f v h i j k l m.
Definition set_text v (r : t) : t :=
  let 'mk a b c d e f g _ i j k l m := r in mk a b c d e f g v i j k l m.
Definition set_replies v (r : t) : t :=
  let 'mk a b c d e f g h _ j k l m := r in mk a b c d e f g h v j k l m.
Definition set_participants v (r : t) : t :=
  let 'mk a b c d e f g h i _ k l m := r in mk a b c d e f g h i v k l m.
Definition set_comments v (r : t) : t :=
  let 'mk a b c d e f g h i j _ l m := r in mk a b c d e f g h i j v l m.
Definition set_support v (r : t) : t :=
  let 'mk a b c d e f g h i j k _ m := r in mk a b c d e f g h i j k v m.
Definition set_support_comment v (r : t) : t :=
  let 'mk a b c d e f g h i j k l _ := r in mk a b c d e f g h i j k l v.

(** The object right after [self.path = ...], the first statement of
    [__init__]: no other attribute exists yet, and nothing reads one
    before it is assigned. *)
Definition fresh (p : string) : t :=
  mk p None None None None None None None None None None None None.

Section Methods.
Context (W : World).

Definition _parse_url (url : option string) : string := urlparse_path W url.

Definition _find_title (soup : node) : result (option string) :=
  match find "h1" (Some "page-title") soup with
  | None => Ok None
  | Some object_title => Ok (Some (get_text object_title))
  end.

Definition _find_date (soup : node) : result (option string) :=
  match find "a" (Some "bbp-topic-permalink") soup with
  | None => Ok None
  | Some object_date =>
      let date_text := get_default "title" "" object_date in
      (* try: ... except ValueError: reply_date = None *)
      let reply_date := strptime W date_text DATE_FORMAT in
      match reply_date with
      | Some d =>
          match astimezone_utc W d with
          | Some u => Ok (Some (isoformat W u))
          | None => Raise OverflowError
          end
      | None => Ok None
      end
  end.

Definition _find_tags (soup : node) : result (option (list string)) :=
  match find "ul" (Some "topic-tags") soup with
  | None => Ok None
  | Some object_tags => Ok (Some (map get_text (find_all "a" None object_tags)))
  end.

Definition _find_rating (soup : node) : result (option Z) :=
  match find "div" (Some "wporg-ratings") soup with
  | None => Ok None
  | Some object_rating =>
      let rating_string := get "title" object_rating in
      match Py.first_char rating_string with
      | Raise e => Raise e
      | Ok c => match Py.int c with
                | Raise e => Raise e
                | Ok z => Ok (Some z)
                end
      end
  end.

Definition _find_author (soup : node) : result (option string) :=
  match find "span" (Some "bbp-author-name") soup with
  | Some object_author => Ok (Some (get_text object_author))
  | None => Ok None
  end.

Definition _find_text (soup : node) : result (option string) :=
  match find "div" (Some "bbp-topic-content") soup with
  | None => Raise AttributeError       (* None.find_all *)
  | Some block =>
      let object_p := find_all "p" None block in
      match object_p with
      | [] => Ok None
      | _ => Ok (Some (Py.join (String "010" "") (map get_text object_p)))
      end
  end.

Definition _find_replies_num (soup : node) : result (option Z) :=
  match find "li" (Some "reply-count") soup with
  | None => Ok None
  | Some object_replies =>
      match Py.int (Py.before_space (get_text object_replies)) with
      | Raise e => Raise e
      | Ok z => Ok (Some z)
      end
  end.

Definition _find_participants_num (soup : node) : result (option Z) :=
  match find "li" (Some "voice-count") soup with
  | None => Ok None
  | Some object_replies =>
      match Py.int (Py.before_space (get_text object_replies)) with
      | Raise e => Raise e
      | Ok z => Ok (Some z)
      end
  end.

(** The body of the loop of [_find_replies]: the mapping built for one
    reply block. *)
Definition reply_comment (reply : node) : comment :=
  let comment : comment := [] in
  let comment :=
    match find "span" (Some "bbp-author-name") reply with
    | Some object_reply_author =>
        Py.dict_set "author" (Py.VStr (get_text object_reply_author)) comment
    | None => comment
    end in
  let comment :=
    match find "div" (Some "bbp-reply-content") reply with
    | Some object_reply_content =>
        let object_text := map get_text (find_all "p" None object_reply_content) in
        Py.dict_set "comment" (Py.VStr (Py.join (String "010" "") object_text)) comment
    | None => comment
    end in
  match find "p" (Some "bbp-reply-post-date") reply with
  | Some object_reply_date =>
      match find "a" None object_reply_date with
      | Some date_object =>
          let date_text := get_default "title" "" date_object in
          (* try: ... except ValueError: reply_date = None *)
          let reply_date := strptime W date_text DATE_FORMAT in
          Py.dict_set "date"
            (match reply_date with
             | Some d => Py.VStr (isoformat W d)
             | None => Py.VNone
             end) comment
      | None => comment
      end
  | None => comment
  end.

Definition _find_replies (soup : node) : result (option (list comment)) :=
  match find_all "div" (Some "reply") soup with
  | [] => Ok None
  | replies => Ok (Some (map reply_comment replies))
  end.

Definition _find_support (soup : node) : result (option string) :=
  match find "div" (Some "by-plugin-support-rep") soup with
  | None => Ok None
  | Some object_support_comment =>
      match find "span" (Some "bbp-author-name") object_support_comment with
      | None => Ok None
      | Some object_support => Ok (Some (get_text object_support))
      end
  end.

Definition _find_support_comment (soup : node) : result (option string) :=
  match find "div" (Some "by-plugin-support-rep") soup with
  | None => Ok None
  | Some object_support_comment =>
      match find "div" (Some "bbp-reply-content") object_support_comment with
      | None => Ok None
      | Some block =>
          Ok (Some (Py.join (String "010" "") (map get_text (find_all "p" None block))))
      end
  end.

(** [self.x = self._find_x(soup)], one attribute after the other: an
    extractor that raises leaves the later attributes as they were. *)
Definition _parse (soup : node) : M t unit :=
  v <~ lift (_find_title soup) ;; assign (set_title v) ;;;
  v <~ lift (_find_date soup) ;; assign (set_date v) ;;;
  v <~ lift (_find_tags soup) ;; assign (set_tags v) ;;;
  v <~ lift (_find_rating soup) ;; assign (set_rating v) ;;;
  v <~ lift (_find_author soup) ;; assign (set_author v) ;;;
  v <~ lift (_find_text soup) ;; assign (set_text v) ;;;
  v <~ lift (_find_replies_num soup) ;; assign (set_replies v) ;;;
  v <~ lift (_find_participants_num soup) ;; assign (set_participants v) ;;;
  v <~ lift (_find_replies soup) ;; assign (set_comments v) ;;;
  v <~ lift (_find_support soup) ;; assign (set_support v) ;;;
  v <~ lift (_find_support_comment soup) ;; assign (set_support_comment v).

Definition load : M t unit :=
  self <~ get_self ;;
  let url := SCHEME +:+ BASE_URL +:+ path self in
  response <~ lift (client_get W url) ;;
  if bool_decide (httpx.status_code response ≠ CONNECTION_OK)
  then raise (ConnectionError (httpx.status_code response))
  else
    _parse (httpx.text response) ;;;
    assign (set_loaded (Some true)).

(** The constructor. The defaults are assigned after the optional
    [self.load()], in the order of the source. *)
Definition __init__ (url : option string) (autoload : bool) : result t :=
  let body : M t unit :=
    (if autoload then load else ret tt) ;;;
    assign (set_title None) ;;;
    assign (set_date None) ;;;
    assign (set_tags (Some [])) ;;;
    assign (set_rating None) ;;;
    assign (set_author None) ;;;
    assign (set_text None) ;;;
    assign (set_replies None) ;;;
    assign (set_participants None) ;;;
    assign (set_comments (Some [])) ;;;
    assign (set_support None) ;;;
    assign (set_support_comment None) in
  match body (fresh (_parse_url url)) with
  | (Ok _, self) => Ok self
  | (Raise e, _) => Raise e
  end.

End Methods.

Definition of_str (v : option string) : Py.value :=
  match v with Some s => Py.VStr s | None => Py.VNone end.
Definition of_int (v : option Z) : Py.value :=
  match v with Some z => Py.VInt z | None => Py.VNone end.
Definition of_tags (v : option (list string)) : Py.value :=
  match v with Some l => Py.VList (map Py.VStr l) | None => Py.VNone end.
Definition of_comments (v : option (list comment)) : Py.value :=
  match v with Some l => Py.VList (map Py.VDict l) | None => Py.VNone end.

Definition to_dict (self : t) : Py.dict Py.value :=
  [ ("path", Py.VStr (path self));
    ("title", of_str (title self));
    ("date", of_str (date self));
    ("tags", of_tags (tags self));
    ("rating", of_int (rating self));
    ("author", of_str (author self));
    ("text", of_str (text self));
    ("replies", of_int (replies self));
    ("participants", of_int (participants self));
    ("comments", of_comments (comments self));
    ("support", of_str (support self));
    ("support_comment", of_str (support_comment self)) ].

(** [tag(number)]: the tag counted from 1. Only the upper end is checked,
    so what the subscript [number - 1] does below 1 is Python's. *)
Definition tag (number : Z) (self : t) : result (option string) :=
  match tags self with
  | Some ((_ :: _) as tags) =>                (* if self.tags: *)
      if Py.len tags <? number then Ok None
      else match Py.getitem tags (number - 1) with
           | Ok name => Ok (Some name)
           | Raise e => Raise e
           end
  | _ => Ok None
  end.

End WordpressReview.

(** ** wordpress_reviews_list.py *)

Module WordpressReviewsList.

Import bs4.

Definition WORDPRESS_REVIEWS_PER_PAGE : Z := 30.

Record t : Type := mk {
  plugin : string;
  review_no : Z;
  page_html : gmap Z (list WordpressReview.t);
  (** the list parsed last; the same list object as the entry of
      [page_html] made from it, and read by nothing but the [return] of
      [load] *)
  reviews : list WordpressReview.t;
  more : option bool;            (* [None]: the attribute is not yet set *)
  loaded : option bool
}.

Definition set_review_no v (c : t) : t :=
  let 'mk a _ x d e f := c in mk a v x d e f.
Definition set_page_html v (c : t) : t :=
  let 'mk a b _ d e f := c in mk a b v d e f.
Definition set_reviews v (c : t) : t :=
  let 'mk a b x _ e f := c in mk a b x v e f.
Definition set_more v (c : t) : t :=
  let 'mk a b x d _ f := c in mk a b x d v f.
Definition set_loaded v (c : t) : t :=
  let 'mk a b x d e _ := c in mk a b x d e v.

Definition __init__ (plugin : string) : t :=
  mk plugin 1 ∅ [] None None.

(** [[f(x) for x in xs]] where [f] may raise: the first failure ends the
    comprehension. *)
Fixpoint comprehension {A B} (f : A -> result B) (xs : list A) : result (list B) :=
  match xs with
  | [] => Ok []
  | x :: xs' =>
      match f x with
      | Raise e => Raise e
      | Ok y => match comprehension f xs' with
                | Raise e => Raise e
                | Ok ys => Ok (y :: ys)
                end
      end
  end.

Section Methods.
Context (W : World).

Definition _link (page : Z) (self : t) : string :=
  if bool_decide (page = 1)
  then "/support/plugin/" +:+ plugin self +:+ "/reviews/"
  else "/support/plugin/" +:+ plugin self +:+ "/reviews/page/" +:+ pretty page +:+ "/".

Definition _parse (soup : node) : M t unit :=
  let reviews := find_all "ul" (Some "topic") soup in
  let review_objects := map (find "a" (Some "bbp-topic-permalink")) reviews in
  review_urls <~ lift (comprehension
    (fun topic => match topic with
                  | Some a => Ok (get "href" a)
                  | None => Raise AttributeError      (* None.get *)
                  end) review_objects) ;;
  objects <~ lift (comprehension
    (fun url => WordpressReview.__init__ W url false) review_urls) ;;
  assign (set_reviews objects) ;;;
  assign (set_more
    (Some (bool_decide (find "a" (Some "next page-numbers") soup ≠ None)))).

Definition load (page : Z) : M t (list WordpressReview.t) :=
  self <~ get_self ;;
  let path := _link page self in
  let url := SCHEME +:+ BASE_URL +:+ path in
  response <~ lift (client_get W url) ;;
  if bool_decide (httpx.status_code response ≠ CONNECTION_OK)
  then raise (ConnectionError (httpx.status_code response))
  else
    _parse (httpx.text response) ;;;
    assign (set_loaded (Some true)) ;;;
    self <~ get_self ;;
    ret (reviews self).

(** [if page not in self.page_html: self.page_html[page] = self.load(page)]
    followed by the read [self.page_html[page]]. *)
Definition cached_page (page : Z) : M t (list WordpressReview.t) :=
  self <~ get_self ;;
  match page_html self !! page with
  | Some entities => ret entities
  | None =>
      entities <~ load page ;;
      assign (fun self => set_page_html (<[page := entities]> (page_html self)) self) ;;;
      ret entities
  end.

(** [review.load()] on the object at position [j] of the cached page:
    the entity is updated where it lives, also when its load raises. *)
Definition load_entity (page : Z) (j : nat) (review : WordpressReview.t)
  : M t WordpressReview.t :=
  fun self =>
    let '(r, review') := WordpressReview.load W review in
    let self' :=
      set_page_html (alter (fun l => <[j := review']> l) page (page_html self)) self in
    (match r with Ok _ => Ok review' | Raise e => Raise e end, self').

Definition _wp_review (number : Z) : M t WordpressReview.t :=
  let page := Py.ceil_div number WORDPRESS_REVIEWS_PER_PAGE in
  entities <~ cached_page page ;;
  let review_no := number - page * WORDPRESS_REVIEWS_PER_PAGE in
  let review_no :=
    if Py.len entities <? WORDPRESS_REVIEWS_PER_PAGE
    then review_no + (WORDPRESS_REVIEWS_PER_PAGE - Py.len entities)
    else review_no in
  (* No more reviews *)
  if 0 <? review_no then raise StopIteration
  else
    (* review = self.page_html[page][review_no - 1] *)
    match Py.index (Py.len entities) (review_no - 1) with
    | None => raise IndexError
    | Some j =>
        match entities !! j with
        | None => raise IndexError
        | Some review => load_entity page j review
        end
    end.

Definition __next__ : M t WordpressReview.t :=
  self <~ get_self ;;
  let review_no := review_no self in
  assign (set_review_no (review_no + 1)) ;;;
  _wp_review review_no.

(** [n] calls of [next()] in a row on one cursor: what each returned or
    raised, and the cursor after the last. *)
Fixpoint nexts (n : nat) (self : t) : list (result WordpressReview.t) * t :=
  match n with
  | O => ([], self)
  | S n' =>
      let '(r, self') := __next__ self in
      let '(rs, self'') := nexts n' self' in
      (r :: rs, self'')
  end.

End Methods.

End WordpressReviewsList.

(** ** wordpress_reviews.py *)

Module WordpressReviews.

Record t : Type := mk {
  plugins : list string;
  number : Z;
  reviews_lists : gmap string WordpressReviewsList.t
}.

Definition set_reviews_lists v (a : t) : t :=
  let 'mk p n _ := a in mk p n v.

(** [plugins] is one name or a list of names. *)
Definition __init__ (plugins : string + list string) (number : Z) : t :=
  let plugins := match plugins with inl p => [p] | inr ps => ps end in
  mk plugins number
     (foldl (fun lists plugin => <[plugin := WordpressReviewsList.__init__ plugin]> lists)
            ∅ plugins).

(** What running the generator [reviews()] to its end gives: the records
    it yielded, in order, and how it ended. *)
Definition run : Type := list (Py.dict Py.value) * result unit.

Section Methods.
Context (W : World).

(** [next(self.reviews_lists[plugin])] *)
Definition next_of (plugin : string) : M t WordpressReview.t :=
  fun self =>
    match reviews_lists self !! plugin with
    | None => (Raise KeyError, self)
    | Some cursor =>
        let '(r, cursor') := WordpressReviewsList.__next__ W cursor in
        (r, set_reviews_lists (<[plugin := cursor']> (reviews_lists self)) self)
    end.

(** The inner loop, [for _ in range(0, self.number)], with [n] rounds
    left: the records it yields, and [Raise] when a round raised. *)
Fixpoint pull (plugin : string) (n : nat) (self : t) : run * t :=
  match n with
  | O => (([], Ok tt), self)
  | S n' =>
      match next_of plugin self with
      | (Raise e, self') => (([], Raise e), self')
      | (Ok review, self') =>
          let record := WordpressReview.to_dict review in
          let record := Py.dict_set "plugin" (Py.VStr plugin) record in
          let '((records, r), self'') := pull plugin n' self' in
          ((record :: records, r), self'')
      end
  end.

(** The outer loop over the plugins still to visit. The handler of
    StopIteration is a [break], and the loop it is in is this one. *)
Fixpoint reviews_loop (todo : list string) (self : t) : run * t :=
  match todo with
  | [] => (([], Ok tt), self)
  | plugin :: todo' =>
      match pull plugin (Py.range_len (number self)) self with
      | ((records, Ok _), self') =>
          let '((records', r), self'') := reviews_loop todo' self' in
          (((records ++ records')%list, r), self'')
      | ((records, Raise StopIteration), self') =>
          ((records, Ok tt), self')                 (* break *)
      | ((records, Raise e), self') =>
          ((records, Raise e), self')
      end
  end.

Definition reviews (self : t) : run * t := reviews_loop (plugins self) self.

End Methods.

End WordpressReviews.


(** ** Notions used in the statements *)

(** A computation that never signals exhaustion. *)
Definition quiet {S A} (c : M S A) : Prop :=
  forall s, (c s).1 <> Raise StopIteration.

(** ** A small snapshot of the site, for the examples

    Plugin [akismet] has 32 reviews: a full first listing page and a second
    page with two topics. Plugin [hello-dolly] has one review, and the site
    answers 404 for its second listing page. Plugin [wp-mail] has one review
    on its first page and, against the assumption of the cursor, a full
    second page. The detail page of topic [bare] has no topic-content
    block. *)

Module Site.

Import bs4.

Definition DATE : string := "April 3, 2024 at 10:15 am".

Definition text_of (s : string) : list node := [NavigableString s].

(** The detail page of the topic called [name]. *)
Definition detail (name : string) : node :=
  Tag "[document]" []
    [ Tag "h1" [("class", "page-title")] (text_of ("Review " +:+ name));
      Tag "a" [("class", "bbp-topic-permalink"); ("title", DATE)] [];
      Tag "ul" [("class", "topic-tags")]
        [ Tag "li" [] [Tag "a" [] (text_of "spam")];
          Tag "li" [] [Tag "a" [] (text_of "comments")] ];
      Tag "div" [("class", "wporg-ratings"); ("title", "5 out of 5 stars")] [];
      Tag "span" [("class", "bbp-author-name")] (text_of "alice");
      Tag "div" [("class", "bbp-topic-content")]
        [ Tag "p" [] (text_of "Works well.");
          Tag "p" [] (text_of "Thanks!") ];
      Tag "li" [("class", "reply-count")] (text_of "1 reply");
      Tag "li" [("class", "voice-count")] (text_of "2 participants");
      Tag "div" [("class", "reply by-plugin-support-rep")]
        [ Tag "span" [("class", "bbp-author-name")] (text_of "bob");
          Tag "div" [("class", "bbp-reply-content")]
            [Tag "p" [] (text_of "Glad to hear it.")];
          Tag "p" [("class", "bbp-reply-post-date")]
            [Tag "a" [("title", "yesterday")] (text_of "1 day ago")] ] ].

(** A detail page without the topic-content block. *)
Definition bare : node :=
  Tag "[document]" []
    [ Tag "h1" [("class", "page-title")] (text_of "Review bare");
      Tag "div" [("class", "wporg-ratings"); ("title", "10 out of 5 stars")] [] ].

(** A detail page whose topic-content block holds no paragraph. *)
Definition wordless : node :=
  Tag "[document]" []
    [ Tag "a" [("class", "bbp-topic-permalink"); ("title", "3 April 2024")] [];
      Tag "div" [("class", "bbp-topic-content")] [Tag "em" [] (text_of "!")] ].

Definition topic_url (name : string) : string :=
  "https://wordpress.org/support/topic/" +:+ name +:+ "/".

Definition topic_names (first count : nat) : list string :=
  map (fun n => "r" +:+ pretty n) (seq first count).

(** A listing page with one topic per name. *)
Definition listing (names : list string) (has_next : bool) : node :=
  Tag "[document]" []
    (map (fun name =>
            Tag "ul" [("class", "topic type-topic")]
              [Tag "a" [("class", "bbp-topic-permalink"); ("href", topic_url name)]
                 (text_of name)]) names
     ++ (if has_next
         then [Tag "a" [("class", "next page-numbers")] (text_of "next")]
         else []))%list.

Definition ok (body : node) : httpx.Response :=
  {| httpx.status_code := 200; httpx.text := body |}.

Definition not_found : httpx.Response :=
  {| httpx.status_code := 404; httpx.text := Tag "[document]" [] [] |}.

Definition pages : list (string * httpx.Response) :=
  ([ ("https://wordpress.org/support/plugin/akismet/reviews/",
       ok (listing (topic_names 1 30) true));
     ("https://wordpress.org/support/plugin/akismet/reviews/page/2/",
       ok (listing (topic_names 31 2) false));
     ("https://wordpress.org/support/plugin/hello-dolly/reviews/",
       ok (listing ["h1"] false));
     ("https://wordpress.org/support/plugin/wp-mail/reviews/",
       ok (listing ["m1"] true));
     ("https://wordpress.org/support/plugin/wp-mail/reviews/page/2/",
       ok (listing (topic_names 101 30) false));
     ("https://wordpress.org/support/topic/bare/", ok bare);
     ("https://wordpress.org/support/topic/wordless/", ok wordless) ]
   ++ map (fun name => (topic_url name, ok (detail name)))
          (["h1"; "m1"] ++ topic_names 1 32 ++ topic_names 101 30))%list.

(** The path of an absolute URL of the site; a relative URL is its own
    path. *)
Fixpoint drop_prefix (prefix s : string) : option string :=
  match prefix, s with
  | "", _ => Some s
  | String a prefix', String b s' =>
      if decide (a = b) then drop_prefix prefix' s' else None
  | _, _ => None
  end.

Definition world : World := {|
  http_get url := Some (from_option id not_found (Py.dict_get url pages));
  urlparse_path url :=
    match url with
    | None => ""
    | Some u => from_option id u (drop_prefix "https://wordpress.org" u)
    end;
  datetime := string;
  strptime date_text format :=
    if decide (date_text = DATE ∧ format = DATE_FORMAT)
    then Some "2024-04-03T10:15:00" else None;
  astimezone_utc d := Some (d +:+ "+00:00");
  isoformat d := d
|}.

(** An entity as the listing parser makes it: the path and the defaults. *)
Definition unloaded (name : string) : WordpressReview.t :=
  WordpressReview.mk ("/support/topic/" +:+ name +:+ "/") None None None
    (Some []) None None None None None (Some []) None None.

Definition akismet : WordpressReviewsList.t :=
  WordpressReviewsList.__init__ "akismet".

Definition akismet_page1 : list WordpressReview.t := map unloaded (topic_names 1 30).
Definition akismet_page2 : list WordpressReview.t := map unloaded (topic_names 31 2).

(** The cursor of [akismet] once it has fetched page [page]; only the
    first listing page has a link to a next page. *)
Definition akismet_with (page : Z) (entities : list WordpressReview.t)
  : WordpressReviewsList.t :=
  WordpressReviewsList.mk "akismet" 1 {[ page := entities ]} entities
    (Some (bool_decide (page = 1))) (Some true).

(** The cursor of [hello-dolly] after its first [next()]. *)
Definition dolly_after_one : WordpressReviewsList.t :=
  (WordpressReviewsList.__next__ world (WordpressReviewsList.__init__ "hello-dolly")).2.

(** A cursor that holds a first listing page of 31 topics. *)
Definition crowded_page : list WordpressReview.t := map unloaded (topic_names 1 31).
Definition crowded : WordpressReviewsList.t :=
  WordpressReviewsList.mk "akismet" 1 {[ 1 := crowded_page ]} crowded_page
    (Some true) (Some true).

(** A listing page on which the second topic has no permalink. *)
Definition broken_listing : node :=
  Tag "[document]" []
    [ Tag "ul" [("class", "topic")]
        [Tag "a" [("class", "bbp-topic-permalink"); ("href", topic_url "r1")] []];
      Tag "ul" [("class", "topic")] [Tag "span" [] (text_of "moved")] ].

(** An entity with two tags. *)
Definition tagged : WordpressReview.t :=
  WordpressReview.set_tags (Some ["spam"; "comments"]) (unloaded "r1").

End Site.


(** * Properties *)

(** ** Python built-ins and the document tree *)

Lemma ceil_div_page (number p : Z) :
  Py.ceil_div number 30 = p <-> 30 * (p - 1) < number <= 30 * p.
Proof.
  unfold Py.ceil_div.
  pose proof (Z.div_mod (- number) 30 ltac:(lia)) as Hdm.
  pose proof (Z.mod_pos_bound (- number) 30 ltac:(lia)) as Hb.
  lia.
Qed.

Lemma index_from_end (n i : Z) :
  - n <= i < 0 -> Py.index n i = Some (Z.to_nat (i + n)).
Proof.
  intros Hi. unfold Py.index.
  destruct (Z.ltb_spec i 0); [|lia].
  destruct (Z.ltb_spec (i + n) 0); [lia|].
  destruct (Z.leb_spec n (i + n)); [lia|]. reflexivity.
Qed.

Lemma dict_get_set_eq {V} (k : string) (v : V) (d : Py.dict V) :
  Py.dict_get k (Py.dict_set k v d) = Some v.
Proof.
  induction d as [|[k' v'] d IH]; simpl.
  - by rewrite decide_True.
  - destruct (decide (k = k')) as [->|Hne]; simpl.
    + by rewrite decide_True.
    + by rewrite decide_False.
Qed.

Lemma int_digit (c : ascii) :
  Py.is_digit c = true -> Py.int (String c "") = Ok (Py.digit_value c).
Proof.
  unfold Py.is_digit, Py.digit_value.
  destruct (Ascii.is_nat c) as [d|] eqn:Hd; [intros _|done].
  destruct c as [[] [] [] [] [] [] [] []]; simplify_eq/=; reflexivity.
Qed.

(** [find] gives nothing exactly when no node below passes the filter. *)
Lemma find_None (name : string) (cls : option string) (n : bs4.node) :
  bs4.find name cls n = None
  <-> Forall (fun d => bs4.matches name cls d = false) (bs4.descendants n).
Proof.
  unfold bs4.find, bs4.find_all. rewrite head_None.
  induction (bs4.descendants n) as [|d l IH]; [by split|].
  rewrite filter_cons, Forall_cons. case_decide as Hm.
  - split; [done | intros [? _]; congruence].
  - rewrite IH. apply not_true_is_false in Hm. tauto.
Qed.

Lemma find_all_nil (name : string) (cls : option string) (n : bs4.node) :
  Forall (fun d => bs4.matches name cls d = false) (bs4.descendants n) ->
  bs4.find_all name cls n = [].
Proof.
  intros H%find_None. unfold bs4.find in H. by apply head_None.
Qed.

(** ** No library call signals exhaustion *)

Lemma quiet_ret {S A} (a : A) : quiet (@ret S A a).
Proof. by intros s. Qed.

Lemma quiet_get_self {S} : quiet (@get_self S).
Proof. by intros s. Qed.

Lemma quiet_assign {S} (f : S -> S) : quiet (assign f).
Proof. by intros s. Qed.

Lemma quiet_raise {S A} (e : exn) : e <> StopIteration -> quiet (@raise S A e).
Proof. intros He s. simpl. congruence. Qed.

Lemma quiet_lift {S A} (r : result A) : r <> Raise StopIteration -> quiet (@lift S A r).
Proof. by intros Hr s. Qed.

Lemma quiet_bind {S A B} (c : M S A) (k : A -> M S B) :
  quiet c -> (forall a, quiet (k a)) -> quiet (bind c k).
Proof.
  intros Hc Hk s. unfold bind. specialize (Hc s).
  destruct (c s) as [[a|e] s']; simpl in *; [apply Hk | congruence].
Qed.

(** ** The review entity and the field extractor *)

Section Review.
Context (W : World).
Import bs4 WordpressReview.

Lemma int_quiet (s : string) : Py.int s <> Raise StopIteration.
Proof. unfold Py.int. by repeat case_match. Qed.

Lemma _parse_quiet (soup : node) : quiet (_parse W soup).
Proof.
  unfold _parse.
  repeat (apply quiet_bind; [|intros ?]); try apply quiet_assign; apply quiet_lift.
  - unfold _find_title. by repeat case_match.
  - unfold _find_date. by repeat case_match.
  - unfold _find_tags. by repeat case_match.
  - unfold _find_rating, Py.first_char. pose proof int_quiet.
    repeat case_match; naive_solver.
  - unfold _find_author. by repeat case_match.
  - unfold _find_text. by repeat case_match.
  - unfold _find_replies_num. pose proof int_quiet. repeat case_match; naive_solver.
  - unfold _find_participants_num. pose proof int_quiet.
    repeat case_match; naive_solver.
  - unfold _find_replies. by repeat case_match.
  - unfold _find_support. by repeat case_match.
  - unfold _find_support_comment. by repeat case_match.
Qed.

Lemma review_load_quiet : quiet (load W).
Proof.
  unfold load. apply quiet_bind; [apply quiet_get_self | intros self].
  apply quiet_bind; [|intros response].
  - apply quiet_lift. unfold client_get. by case_match.
  - case_bool_decide.
    + by apply quiet_raise.
    + apply quiet_bind; [apply _parse_quiet | intros; apply quiet_assign].
Qed.

(** Without autoload the constructor cannot fail. *)
Lemma __init___plain (url : option string) :
  __init__ W url false
  = Ok (mk (_parse_url W url) None None None (Some []) None None None None None
           (Some []) None None).
Proof. reflexivity. Qed.

(** Parsing a detail page touches neither [path] nor [loaded]. *)
Lemma _parse_frame (soup : node) (self : t) :
  path (_parse W soup self).2 = path self
  /\ loaded (_parse W soup self).2 = loaded self.
Proof.
  unfold _parse, bind, lift, assign.
  destruct (_find_title soup); [|done].
  destruct (_find_date W soup); [|by destruct self].
  destruct (_find_tags soup); [|by destruct self].
  destruct (_find_rating soup); [|by destruct self].
  destruct (_find_author soup); [|by destruct self].
  destruct (_find_text soup); [|by destruct self].
  destruct (_find_replies_num soup); [|by destruct self].
  destruct (_find_participants_num soup); [|by destruct self].
  destruct (_find_replies W soup); [|by destruct self].
  destruct (_find_support soup); [|by destruct self].
  destruct (_find_support_comment soup); by destruct self.
Qed.

(** A load that returns has set [loaded] and kept [path]. *)
Lemma review_load_returns (self self' : t) :
  load W self = (Ok tt, self') ->
  path self' = path self /\ loaded self' = Some true.
Proof.
  unfold load, bind, get_self, lift, raise, assign.
  destruct (client_get W _) as [response|e]; [|done].
  case_bool_decide; [done|].
  destruct (_parse_frame (httpx.text response) self) as [Hp Hl].
  destruct (_parse W (httpx.text response) self) as [[[]|e] s]; [|done].
  intros [= <-]. simpl in *. by destruct s.
Qed.

(** C6: a detail page without the topic-content block makes the text
    extractor raise (AttributeError), so parsing the page fails and assigns no
    text; a page whose block holds no paragraph gives the text [None] without
    an error. *)
Theorem missing_text_block_is_fatal (missing present block : node) :
  Forall (fun d => matches "div" (Some "bbp-topic-content") d = false)
         (descendants missing) ->
  find "div" (Some "bbp-topic-content") present = Some block ->
  Forall (fun d => matches "p" None d = false) (descendants block) ->
  (_find_text missing = Raise AttributeError
   /\ forall self, exists e,
        (_parse W missing self).1 = Raise e
        /\ text (_parse W missing self).2 = text self)
  /\ _find_text present = Ok None.
Proof.
  intros Hmissing%find_None Hblock Hnop%find_all_nil.
  assert (Htext : _find_text missing = Raise AttributeError)
    by (unfold _find_text; by rewrite Hmissing).
  split; [split; [done|] |].
  - intros self. unfold _parse, bind, lift, assign. rewrite Htext.
    destruct (_find_title missing); [|by eexists].
    destruct (_find_date W missing); [|eexists; by destruct self].
    destruct (_find_tags missing); [|eexists; by destruct self].
    destruct (_find_rating missing); [|eexists; by destruct self].
    destruct (_find_author missing); eexists; by destruct self.
  - unfold _find_text. by rewrite Hblock, Hnop.
Qed.

(** C7: a permalink title that [strptime] rejects gives the date [None]
    and no exception, and a reply whose date link has such a title gets the
    entry [date] with the value [None]. *)
Theorem unparsable_date_is_null
    (soup anchor thread reply paragraph link : node) (i : nat) :
  find "a" (Some "bbp-topic-permalink") soup = Some anchor ->
  strptime W (get_default "title" "" anchor) DATE_FORMAT = None ->
  find_all "div" (Some "reply") thread !! i = Some reply ->
  find "p" (Some "bbp-reply-post-date") reply = Some paragraph ->
  find "a" None paragraph = Some link ->
  strptime W (get_default "title" "" link) DATE_FORMAT = None ->
  _find_date W soup = Ok None
  /\ exists comments entry,
       _find_replies W thread = Ok (Some comments)
       /\ comments !! i = Some entry
       /\ Py.dict_get "date" entry = Some Py.VNone.
Proof.
  intros Ha Hdate Hi Hp Hl Hreply. split.
  - unfold _find_date. by rewrite Ha, Hdate.
  - exists (map (reply_comment W) (find_all "div" (Some "reply") thread)),
      (reply_comment W reply).
    split; [|split].
    + unfold _find_replies. by destruct (find_all _ _ thread).
    + change (map ?f ?l) with (f <$> l). by rewrite list_lookup_fmap, Hi.
    + unfold reply_comment. rewrite Hp, Hl, Hreply. apply dict_get_set_eq.
Qed.

(** C9: the rating is the value of the first character of the widget's
    title when that is a digit, whatever follows it, and [None] when the page
    has no ratings widget. *)
Theorem rating_is_leading_digit
    (soup widget plain : node) (d : ascii) (rest : string) :
  find "div" (Some "wporg-ratings") soup = Some widget ->
  get "title" widget = Some (String d rest) ->
  Py.is_digit d = true ->
  Forall (fun n => matches "div" (Some "wporg-ratings") n = false)
         (descendants plain) ->
  _find_rating soup = Ok (Some (Py.digit_value d))
  /\ _find_rating plain = Ok None.
Proof.
  intros Hw Ht Hd Hplain%find_None. unfold _find_rating. split.
  - rewrite Hw, Ht. simpl. by rewrite (int_digit d Hd).
  - by rewrite Hplain.
Qed.

(** C8: [to_dict] has exactly the twelve keys, each with the current value
    of the attribute of the same name, and an entity that was constructed and
    not loaded has empty lists under [tags] and [comments]. *)
Theorem to_dict_keeps_every_field (self : t) (url : option string) :
  Py.keys (to_dict self)
  = ["path"; "title"; "date"; "tags"; "rating"; "author"; "text"; "replies";
     "participants"; "comments"; "support"; "support_comment"]
  /\ Py.dict_get "path" (to_dict self) = Some (Py.VStr (path self))
  /\ Py.dict_get "title" (to_dict self) = Some (of_str (title self))
  /\ Py.dict_get "date" (to_dict self) = Some (of_str (date self))
  /\ Py.dict_get "tags" (to_dict self) = Some (of_tags (tags self))
  /\ Py.dict_get "rating" (to_dict self) = Some (of_int (rating self))
  /\ Py.dict_get "author" (to_dict self) = Some (of_str (author self))
  /\ Py.dict_get "text" (to_dict self) = Some (of_str (text self))
  /\ Py.dict_get "replies" (to_dict self) = Some (of_int (replies self))
  /\ Py.dict_get "participants" (to_dict self) = Some (of_int (participants self))
  /\ Py.dict_get "comments" (to_dict self) = Some (of_comments (comments self))
  /\ Py.dict_get "support" (to_dict self) = Some (of_str (support self))
  /\ Py.dict_get "support_comment" (to_dict self)
     = Some (of_str (support_comment self))
  /\ exists unloaded,
       __init__ W url false = Ok unloaded
       /\ Py.dict_get "tags" (to_dict unloaded) = Some (Py.VList [])
       /\ Py.dict_get "comments" (to_dict unloaded) = Some (Py.VList []).
Proof.
  repeat split; try reflexivity.
  eexists. rewrite __init___plain. repeat split; reflexivity.
Qed.

(** C10: a constructor call with autoload that returns gives an entity
    with every extracted attribute at its default; [path] and the [loaded]
    flag are all that the load leaves. *)
Theorem autoload_is_overwritten (url : option string) (self : t) :
  __init__ W url true = Ok self ->
  self = mk (_parse_url W url) (Some true) None None (Some []) None None None
            None None (Some []) None None.
Proof.
  unfold __init__, bind, assign.
  destruct (load W (fresh (_parse_url W url))) as [[[]|e] s] eqn:Hload; [|done].
  apply review_load_returns in Hload as [Hp Hl]. intros [= <-].
  destruct s; simpl in *. by subst.
Qed.

End Review.

Lemma missing_text_block_is_fatal_witness :
  Forall (fun d => bs4.matches "div" (Some "bbp-topic-content") d = false)
         (bs4.descendants Site.bare)
  /\ (WordpressReview._find_text Site.bare = Raise AttributeError
      /\ forall self, exists e,
           (WordpressReview._parse Site.world Site.bare self).1 = Raise e
           /\ WordpressReview.text (WordpressReview._parse Site.world Site.bare self).2
              = WordpressReview.text self)
  /\ WordpressReview._find_text Site.wordless = Ok None.
Proof.
  assert (H1 : Forall (fun d => bs4.matches "div" (Some "bbp-topic-content") d = false)
                      (bs4.descendants Site.bare))
    by (vm_compute; repeat constructor).
  split; [exact H1|].
  apply (missing_text_block_is_fatal Site.world Site.bare Site.wordless
           (bs4.Tag "div" [("class", "bbp-topic-content")]
              [bs4.Tag "em" [] (Site.text_of "!")]) H1).
  - reflexivity.
  - vm_compute; repeat constructor.
Defined.

Lemma unparsable_date_is_null_witness :
  strptime Site.world "3 April 2024" DATE_FORMAT = None
  /\ strptime Site.world "yesterday" DATE_FORMAT = None
  /\ WordpressReview._find_date Site.world Site.wordless = Ok None
  /\ exists comments entry,
       WordpressReview._find_replies Site.world (Site.detail "r1") = Ok (Some comments)
       /\ comments !! 0%nat = Some entry
       /\ Py.dict_get "date" entry = Some Py.VNone.
Proof.
  split; [reflexivity|]. split; [reflexivity|].
  apply (unparsable_date_is_null Site.world Site.wordless
           (bs4.Tag "a" [("class", "bbp-topic-permalink"); ("title", "3 April 2024")] [])
           (Site.detail "r1")
           (bs4.Tag "div" [("class", "reply by-plugin-support-rep")]
              [ bs4.Tag "span" [("class", "bbp-author-name")] (Site.text_of "bob");
                bs4.Tag "div" [("class", "bbp-reply-content")]
                  [bs4.Tag "p" [] (Site.text_of "Glad to hear it.")];
                bs4.Tag "p" [("class", "bbp-reply-post-date")]
                  [bs4.Tag "a" [("title", "yesterday")] (Site.text_of "1 day ago")] ])
           (bs4.Tag "p" [("class", "bbp-reply-post-date")]
              [bs4.Tag "a" [("title", "yesterday")] (Site.text_of "1 day ago")])
           (bs4.Tag "a" [("title", "yesterday")] (Site.text_of "1 day ago"))
           0%nat); reflexivity.
Defined.

Lemma rating_is_leading_digit_witness :
  Py.is_digit "1" = true
  /\ WordpressReview._find_rating Site.bare = Ok (Some 1)
  /\ WordpressReview._find_rating Site.wordless = Ok None.
Proof.
  split; [reflexivity|].
  apply (rating_is_leading_digit Site.bare
           (bs4.Tag "div" [("class", "wporg-ratings"); ("title", "10 out of 5 stars")] [])
           Site.wordless "1" "0 out of 5 stars").
  - reflexivity.
  - reflexivity.
  - reflexivity.
  - vm_compute; repeat constructor.
Defined.

Lemma autoload_is_overwritten_witness :
  WordpressReview.__init__ Site.world (Some (Site.topic_url "r1")) true
  = Ok (WordpressReview.mk "/support/topic/r1/" (Some true) None None (Some [])
          None None None None None (Some []) None None)
  /\ WordpressReview.mk "/support/topic/r1/" (Some true) None None (Some [])
       None None None None None (Some []) None None
     = WordpressReview.mk
         (WordpressReview._parse_url Site.world (Some (Site.topic_url "r1")))
         (Some true) None None (Some []) None None None None None (Some []) None None.
Proof.
  assert (H : WordpressReview.__init__ Site.world (Some (Site.topic_url "r1")) true
              = Ok (WordpressReview.mk "/support/topic/r1/" (Some true) None None
                      (Some []) None None None None None (Some []) None None))
    by (vm_compute; reflexivity).
  split; [exact H|].
  exact (autoload_is_overwritten Site.world _ _ H).
Defined.

(** ** The cursor *)

Section Cursor.
Context (W : World).
Import WordpressReviewsList.

(** Fetching a listing page leaves the counter and the page cache alone. *)
Lemma listing_load_frame (page : Z) (self : t) :
  review_no (load W page self).2 = review_no self
  /\ page_html (load W page self).2 = page_html self.
Proof.
  unfold load, _parse, bind, get_self, lift, raise, assign, ret.
  destruct (client_get W _) as [response|e]; [|done].
  case_bool_decide; [done|].
  destruct (comprehension _ _) as [urls|e]; [|done].
  destruct (comprehension _ urls) as [objects|e]; [|done].
  by destruct self.
Qed.

Lemma comprehension_quiet {A B} (f : A -> result B) (xs : list A) :
  (forall x, f x <> Raise StopIteration) ->
  comprehension f xs <> Raise StopIteration.
Proof.
  intros Hf. induction xs as [|x xs IH]; simpl; [done|].
  specialize (Hf x). destruct (f x); [|congruence].
  destruct (comprehension f xs); congruence.
Qed.

Lemma listing_load_quiet (page : Z) : quiet (load W page).
Proof.
  unfold load. apply quiet_bind; [apply quiet_get_self | intros self].
  apply quiet_bind; [|intros response].
  { apply quiet_lift. unfold client_get. by case_match. }
  case_bool_decide; [by apply quiet_raise|].
  apply quiet_bind; [|intros _].
  - unfold _parse. apply quiet_bind; [|intros urls].
    { apply quiet_lift, comprehension_quiet. by intros []. }
    apply quiet_bind; [|intros objects].
    { apply quiet_lift, comprehension_quiet. intros url.
      by rewrite __init___plain. }
    apply quiet_bind; [|intros _]; apply quiet_assign.
  - apply quiet_bind; [apply quiet_assign | intros _].
    apply quiet_bind; [apply quiet_get_self | intros; apply quiet_ret].
Qed.

Lemma cached_page_quiet (page : Z) : quiet (cached_page W page).
Proof.
  unfold cached_page. apply quiet_bind; [apply quiet_get_self | intros self].
  destruct (page_html self !! page); [apply quiet_ret|].
  apply quiet_bind; [apply listing_load_quiet | intros entities].
  apply quiet_bind; [apply quiet_assign | intros; apply quiet_ret].
Qed.

Lemma load_entity_quiet (page : Z) (j : nat) review :
  quiet (load_entity W page j review).
Proof.
  intros self. unfold load_entity.
  pose proof (review_load_quiet W review) as Hq.
  destruct (WordpressReview.load W review) as [[[]|e] review']; simpl in *;
    congruence.
Qed.

(** A page that is in the cache is not fetched again. *)
Lemma cached_page_hit (page : Z) (self : t) entities :
  page_html self !! page = Some entities ->
  cached_page W page self = (Ok entities, self).
Proof. intros H. unfold cached_page, bind, get_self, ret. by rewrite H. Qed.

Lemma cached_page_frame (page : Z) (self : t) :
  review_no (cached_page W page self).2 = review_no self.
Proof.
  unfold cached_page, bind, get_self, ret, assign.
  destruct (page_html self !! page); [done|].
  destruct (listing_load_frame page self) as [Hn _].
  destruct (load W page self) as [[entities|e] self']; simpl in *; [|done].
  by destruct self'.
Qed.

(** After [cached_page] the page is in the cache. *)
Lemma cached_page_cached (page : Z) (self self1 : t) entities :
  cached_page W page self = (Ok entities, self1) ->
  page_html self1 !! page = Some entities.
Proof.
  unfold cached_page, bind, get_self, ret, assign.
  destruct (page_html self !! page) as [l|] eqn:Hl.
  - by intros [= <- <-].
  - destruct (load W page self) as [[l|e] self']; [|done].
    intros [= <- <-]. destruct self'; simpl. apply lookup_insert_eq.
Qed.

Lemma load_entity_frame (page : Z) (j : nat) review (self : t) :
  review_no (load_entity W page j review self).2 = review_no self.
Proof.
  unfold load_entity. destruct (WordpressReview.load W review). by destruct self.
Qed.

Lemma _wp_review_frame (number : Z) (self : t) :
  review_no (_wp_review W number self).2 = review_no self.
Proof.
  unfold _wp_review, bind, raise.
  pose proof (cached_page_frame (Py.ceil_div number WORDPRESS_REVIEWS_PER_PAGE) self)
    as Hn.
  destruct (cached_page W _ self) as [[entities|e] self1]; simpl in *; [|done].
  repeat case_match; try done; by rewrite load_entity_frame.
Qed.

(** The entity that [_wp_review] takes from a page of at most thirty, for an
    index that the page covers. *)
Lemma _wp_review_select (number page : Z) (self self1 : t) entities :
  Py.ceil_div number 30 = page ->
  cached_page W page self = (Ok entities, self1) ->
  Py.len entities <= 30 ->
  number - 30 * (page - 1) <= Py.len entities ->
  let j := Z.to_nat (number - 30 * (page - 1) - 1) in
  exists review,
    entities !! j = Some review
    /\ _wp_review W number self = load_entity W page j review self1.
Proof.
  intros Hpage Hcached Hlen Hin j.
  apply ceil_div_page in Hpage as Hbounds.
  assert (Hj : (j < length entities)%nat) by (unfold Py.len in *; lia).
  destruct (lookup_lt_is_Some_2 entities j Hj) as [review Hreview].
  exists review. split; [done|].
  unfold _wp_review, bind, raise. change WORDPRESS_REVIEWS_PER_PAGE with 30.
  rewrite Hpage, Hcached.
  set (review_no := if Py.len entities <? 30
                    then number - page * 30 + (30 - Py.len entities)
                    else number - page * 30).
  assert (Hno : review_no = number - 30 * (page - 1) - Py.len entities).
  { unfold review_no. destruct (Z.ltb_spec (Py.len entities) 30); lia. }
  destruct (Z.ltb_spec 0 review_no); [lia|].
  rewrite index_from_end by lia.
  replace (Z.to_nat (review_no - 1 + Py.len entities)) with j by lia.
  by rewrite Hreview.
Qed.

(** On any full page [q] the index [30*(q-1) + j] takes position [j - 1];
    with [j = 30] that is the last review before a following page, also when
    that page turns out to be empty. *)
Lemma full_page_in_order
    (self self1 : t) (entities : list WordpressReview.t) (q j : Z) :
  cached_page W q self = (Ok entities, self1) ->
  Py.len entities = 30 ->
  1 <= j <= 30 ->
  exists review,
    entities !! Z.to_nat (j - 1) = Some review
    /\ _wp_review W (30 * (q - 1) + j) self
       = load_entity W q (Z.to_nat (j - 1)) review self1.
Proof.
  intros Hcached Hlen Hj.
  assert (Hpage : Py.ceil_div (30 * (q - 1) + j) 30 = q)
    by (apply ceil_div_page; lia).
  destruct (_wp_review_select _ q self self1 entities Hpage Hcached)
    as (review & Hreview & Hcall); [lia | lia |].
  replace (Z.to_nat (30 * (q - 1) + j - 30 * (q - 1) - 1))
    with (Z.to_nat (j - 1)) in * by lia.
  by exists review.
Qed.

(** A call of [_wp_review] signals exhaustion only at the source line that
    says so: the page is short and the index lies beyond its last review. *)
Lemma _wp_review_stop (number : Z) (self self1 : t) :
  _wp_review W number self = (Raise StopIteration, self1) ->
  exists entities,
    cached_page W (Py.ceil_div number 30) self = (Ok entities, self1)
    /\ Py.len entities < 30
    /\ 30 * (Py.ceil_div number 30 - 1) + Py.len entities < number.
Proof.
  unfold _wp_review, bind, raise. change WORDPRESS_REVIEWS_PER_PAGE with 30.
  set (page := Py.ceil_div number 30).
  assert (Hb : 30 * (page - 1) < number <= 30 * page) by by apply ceil_div_page.
  pose proof (cached_page_quiet page self) as Hq.
  destruct (cached_page W page self) as [[entities|e] s]; simpl in *;
    [|congruence].
  destruct (Z.ltb_spec (Py.len entities) 30) as [Hshort|Hfull].
  - destruct (Z.ltb_spec 0 (number - page * 30 + (30 - Py.len entities))).
    + intros [= <-]. exists entities. repeat split; [done | lia].
    + intros Hsel. exfalso. repeat case_match; try done.
      by eapply load_entity_quiet; rewrite Hsel.
  - destruct (Z.ltb_spec 0 (number - page * 30)); [lia|].
    intros Hsel. exfalso. repeat case_match; try done.
    by eapply load_entity_quiet; rewrite Hsel.
Qed.

(** A call beyond the last review of a short cached page signals
    exhaustion and changes nothing. *)
Lemma _wp_review_beyond (number page : Z) (self self1 : t) entities :
  Py.ceil_div number 30 = page ->
  cached_page W page self = (Ok entities, self1) ->
  Py.len entities < 30 ->
  30 * (page - 1) + Py.len entities < number ->
  _wp_review W number self = (Raise StopIteration, self1).
Proof.
  intros Hpage Hcached Hshort Hbeyond.
  unfold _wp_review, bind, raise. change WORDPRESS_REVIEWS_PER_PAGE with 30.
  rewrite Hpage, Hcached.
  destruct (Z.ltb_spec (Py.len entities) 30); [|lia].
  by destruct (Z.ltb_spec 0 (number - page * 30 + (30 - Py.len entities))); [|lia].
Qed.

Lemma __next___unfold (self : t) :
  __next__ W self = _wp_review W (review_no self) (set_review_no (review_no self + 1) self).
Proof. reflexivity. Qed.

(** Calls in a row, all on one short cached page and beyond its last
    review. *)
Lemma exhausted_run (page : Z) entities (n : nat) :
  forall self,
    page_html self !! page = Some entities ->
    Py.len entities < 30 ->
    30 * (page - 1) + Py.len entities < review_no self ->
    review_no self + Z.of_nat n <= 30 * page + 1 ->
    Forall (fun r => r = Raise StopIteration) (nexts W n self).1.
Proof.
  assert (0 <= Py.len entities) by (unfold Py.len; lia).
  induction n as [|n IH]; intros self Hcached Hshort Hlow Hhigh; [by constructor|].
  simpl. rewrite __next___unfold.
  set (self0 := set_review_no (review_no self + 1) self).
  assert (Hcached0 : page_html self0 !! page = Some entities)
    by (subst self0; by destruct self).
  rewrite (_wp_review_beyond (review_no self) page self0 self0 entities);
    [|apply ceil_div_page; lia | by apply cached_page_hit | done | done].
  specialize (IH self0 Hcached0 Hshort).
  assert (Hno : review_no self0 = review_no self + 1)
    by (subst self0; by destruct self).
  destruct (nexts W n self0) as [rs self']. simpl in *.
  constructor; [done|]. apply IH; lia.
Qed.

(** C4: on a first listing page of thirty reviews, an index [i] from 1 to
    30 is on page [ceil(i/30) = 1], and the entity taken (and then loaded in
    place) is the one at position [i - 1] of the page, counted from 0. *)
Theorem full_first_page_in_order
    (self self1 : t) (entities : list WordpressReview.t) (i : Z) :
  cached_page W 1 self = (Ok entities, self1) ->
  Py.len entities = 30 ->
  1 <= i <= 30 ->
  Py.ceil_div i 30 = 1
  /\ exists review,
       entities !! Z.to_nat (i - 1) = Some review
       /\ _wp_review W i self = load_entity W 1 (Z.to_nat (i - 1)) review self1.
Proof.
  intros Hcached Hlen Hi.
  assert (Hpage : Py.ceil_div i 30 = 1) by (apply ceil_div_page; lia).
  split; [done|].
  destruct (_wp_review_select i 1 self self1 entities Hpage Hcached)
    as (review & Hreview & Hcall); [lia | lia |].
  exists review. by replace (Z.to_nat (i - 1)) with (Z.to_nat (i - 30 * (1 - 1) - 1)) by lia.
Qed.

(** C1: when page [p] holds [k < 30] reviews, the call for the index
    [30*(p-1) + k] takes the last entity of the page, loads it in place and,
    when that load returns, returns it; the call for the index after it
    raises StopIteration. (With [k = 0] the page has no last review and only
    the second half says something.) *)
Theorem short_final_page
    (self self1 : t) (entities : list WordpressReview.t) (p k : Z) :
  cached_page W p self = (Ok entities, self1) ->
  Py.len entities = k ->
  k < 30 ->
  (1 <= k ->
   exists review,
     last entities = Some review
     /\ _wp_review W (30 * (p - 1) + k) self
        = load_entity W p (Z.to_nat (k - 1)) review self1
     /\ forall review',
          WordpressReview.load W review = (Ok tt, review') ->
          (_wp_review W (30 * (p - 1) + k) self).1 = Ok review')
  /\ _wp_review W (30 * (p - 1) + k + 1) self = (Raise StopIteration, self1).
Proof.
  intros Hcached Hlen Hk.
  assert (0 <= k) by (unfold Py.len in Hlen; lia).
  split.
  - intros Hk1.
    assert (Hpage : Py.ceil_div (30 * (p - 1) + k) 30 = p)
      by (apply ceil_div_page; lia).
    destruct (_wp_review_select _ p self self1 entities Hpage Hcached)
      as (review & Hreview & Hcall); [lia | lia |].
    replace (Z.to_nat (30 * (p - 1) + k - 30 * (p - 1) - 1))
      with (Z.to_nat (k - 1)) in * by lia.
    exists review. split; [|split; [done|]].
    + rewrite last_lookup, <- Hreview. f_equal. unfold Py.len in Hlen. lia.
    + intros review' Hload. rewrite Hcall. unfold load_entity. by rewrite Hload.
  - apply (_wp_review_beyond _ p self self1 entities); [|done|lia|lia].
    apply ceil_div_page; lia.
Qed.

(** C3, as the code has it: after a call that raised StopIteration, the
    calls that follow raise StopIteration as long as their index is on the
    same listing page. The cursor keeps no mark of being exhausted: the first
    index of the next page makes it fetch that page. *)
Theorem exhaustion_lasts_to_the_end_of_the_page (self : t) (n : nat) :
  (__next__ W self).1 = Raise StopIteration ->
  review_no self + Z.of_nat n <= 30 * Py.ceil_div (review_no self) 30 ->
  Forall (fun r => r = Raise StopIteration) (nexts W (S n) self).1.
Proof.
  intros Hstop Hpage. simpl.
  destruct (__next__ W self) as [r self1] eqn:Hnext. simpl in Hstop. subst r.
  rewrite __next___unfold in Hnext.
  pose proof (_wp_review_frame (review_no self)
                (set_review_no (review_no self + 1) self)) as Hno.
  rewrite Hnext in Hno. simpl in Hno.
  replace (review_no (set_review_no (review_no self + 1) self))
    with (review_no self + 1) in Hno by by destruct self.
  apply _wp_review_stop in Hnext as (entities & Hcached & Hshort & Hbeyond).
  apply cached_page_cached in Hcached.
  pose proof (exhausted_run (Py.ceil_div (review_no self) 30) entities n self1
                Hcached Hshort) as Hrun.
  destruct (nexts W n self1) as [rs self2]. simpl in *.
  constructor; [done|]. apply Hrun; lia.
Qed.

(** C5, as the code has it: the counter starts at 1 and every call of
    [next()] adds 1 to it, whether the call returns a review, signals
    exhaustion or fails. *)
Theorem next_index_counts_every_call (name : string) (self : t) :
  review_no (__init__ name) = 1
  /\ review_no (__next__ W self).2 = review_no self + 1.
Proof.
  split; [done|].
  rewrite __next___unfold, _wp_review_frame. by destruct self.
Qed.

End Cursor.

Lemma full_first_page_in_order_witness :
  WordpressReviewsList.cached_page Site.world 1 Site.akismet
  = (Ok Site.akismet_page1, Site.akismet_with 1 Site.akismet_page1)
  /\ Py.len Site.akismet_page1 = 30
  /\ Py.ceil_div 7 30 = 1
  /\ exists review,
       Site.akismet_page1 !! 6%nat = Some review
       /\ WordpressReviewsList._wp_review Site.world 7 Site.akismet
          = WordpressReviewsList.load_entity Site.world 1 6 review
              (Site.akismet_with 1 Site.akismet_page1).
Proof.
  assert (H : WordpressReviewsList.cached_page Site.world 1 Site.akismet
              = (Ok Site.akismet_page1, Site.akismet_with 1 Site.akismet_page1))
    by (vm_compute; reflexivity).
  split; [exact H|]. split; [reflexivity|].
  apply (full_first_page_in_order Site.world _ _ _ 7 H); [reflexivity | lia].
Defined.

Lemma short_final_page_witness :
  WordpressReviewsList.cached_page Site.world 2 Site.akismet
  = (Ok Site.akismet_page2, Site.akismet_with 2 Site.akismet_page2)
  /\ Py.len Site.akismet_page2 = 2
  /\ (exists review,
        last Site.akismet_page2 = Some review
        /\ WordpressReviewsList._wp_review Site.world 32 Site.akismet
           = WordpressReviewsList.load_entity Site.world 2 1 review
               (Site.akismet_with 2 Site.akismet_page2)
        /\ forall review',
             WordpressReview.load Site.world review = (Ok tt, review') ->
             (WordpressReviewsList._wp_review Site.world 32 Site.akismet).1 = Ok review')
  /\ WordpressReviewsList._wp_review Site.world 33 Site.akismet
     = (Raise StopIteration, Site.akismet_with 2 Site.akismet_page2).
Proof.
  assert (H : WordpressReviewsList.cached_page Site.world 2 Site.akismet
              = (Ok Site.akismet_page2, Site.akismet_with 2 Site.akismet_page2))
    by (vm_compute; reflexivity).
  split; [exact H|]. split; [reflexivity|].
  destruct (short_final_page Site.world _ _ _ 2 2 H) as [Hlast Hstop];
    [reflexivity | lia |].
  split; [apply Hlast; lia | exact Hstop].
Defined.

Lemma exhaustion_lasts_to_the_end_of_the_page_witness :
  (WordpressReviewsList.__next__ Site.world Site.dolly_after_one).1
  = Raise StopIteration
  /\ WordpressReviewsList.review_no Site.dolly_after_one + Z.of_nat 28
     <= 30 * Py.ceil_div (WordpressReviewsList.review_no Site.dolly_after_one) 30
  /\ Forall (fun r => r = Raise StopIteration)
       (WordpressReviewsList.nexts Site.world 29 Site.dolly_after_one).1.
Proof.
  assert (H1 : (WordpressReviewsList.__next__ Site.world Site.dolly_after_one).1
               = Raise StopIteration) by (vm_compute; reflexivity).
  assert (H2 : WordpressReviewsList.review_no Site.dolly_after_one + Z.of_nat 28
               <= 30 * Py.ceil_div (WordpressReviewsList.review_no Site.dolly_after_one) 30)
    by (vm_compute; discriminate).
  split; [exact H1|]. split; [exact H2|].
  exact (exhaustion_lasts_to_the_end_of_the_page Site.world _ 28 H1 H2).
Defined.

(** C3, counterexample: exhaustion is not final. The second call on
    [hello-dolly] raises StopIteration and the thirty-first, the first of
    page 2, raises ConnectionError; on [wp-mail], whose second page is full,
    the thirty-first call returns a review again. *)
Lemma exhaustion_is_not_final :
  (WordpressReviewsList.nexts Site.world 31
     (WordpressReviewsList.__init__ "hello-dolly")).1 !! 1%nat
  = Some (Raise StopIteration)
  /\ (WordpressReviewsList.nexts Site.world 31
        (WordpressReviewsList.__init__ "hello-dolly")).1 !! 30%nat
     = Some (Raise (ConnectionError 404))
  /\ (WordpressReviewsList.nexts Site.world 31
        (WordpressReviewsList.__init__ "wp-mail")).1 !! 1%nat
     = Some (Raise StopIteration)
  /\ WordpressReview.path <$>
       (match (WordpressReviewsList.nexts Site.world 31
                 (WordpressReviewsList.__init__ "wp-mail")).1 !! 30%nat with
        | Some (Ok review) => Some review
        | _ => None
        end)
     = Some "/support/topic/r101/".
Proof. repeat split; vm_compute; reflexivity. Qed.

(** C5, counterexample: the counter moves without a review. The second
    call on [hello-dolly] raises StopIteration and moves the counter from 2
    to 3, and a call whose listing fetch fails moves it from 1 to 2. *)
Lemma next_index_moves_without_a_review :
  ((WordpressReviewsList.__next__ Site.world Site.dolly_after_one).1
   = Raise StopIteration
   /\ WordpressReviewsList.review_no Site.dolly_after_one = 2
   /\ WordpressReviewsList.review_no
        (WordpressReviewsList.__next__ Site.world Site.dolly_after_one).2 = 3)
  /\ ((WordpressReviewsList.__next__ Site.world
         (WordpressReviewsList.__init__ "no-such-plugin")).1
      = Raise (ConnectionError 404)
      /\ WordpressReviewsList.review_no
           (WordpressReviewsList.__next__ Site.world
              (WordpressReviewsList.__init__ "no-such-plugin")).2 = 2).
Proof. repeat split; vm_compute; reflexivity. Qed.

(** ** The aggregator *)

Section Aggregator.
Context (W : World).
Import WordpressReviews.

(** Exhaustion inside the quota loop of one plugin ends the loop over the
    plugins: the plugins after it are not visited. *)
Lemma stop_leaves_the_plugin_loop
    (plugin : string) (todo : list string) (self self' : t) records :
  pull W plugin (Py.range_len (number self)) self
  = ((records, Raise StopIteration), self') ->
  reviews_loop W (plugin :: todo) self = ((records, Ok tt), self').
Proof. intros H. simpl. by rewrite H. Qed.

End Aggregator.

(** C2, evaluated: with the plugins [hello-dolly] (one review) and
    [akismet] and a quota of two, the run yields the one record of
    [hello-dolly] and ends normally; the cursor of [akismet] is never
    advanced. *)
Theorem exhaustion_ends_the_whole_run :
  (WordpressReviews.reviews Site.world
     (WordpressReviews.__init__ (inr ["hello-dolly"; "akismet"]) 2)).1.2 = Ok tt
  /\ map (Py.dict_get "plugin")
       (WordpressReviews.reviews Site.world
          (WordpressReviews.__init__ (inr ["hello-dolly"; "akismet"]) 2)).1.1
     = [Some (Py.VStr "hello-dolly")]
  /\ WordpressReviews.reviews_lists
       (WordpressReviews.reviews Site.world
          (WordpressReviews.__init__ (inr ["hello-dolly"; "akismet"]) 2)).2
     !! "akismet"
     = Some (WordpressReviewsList.__init__ "akismet").
Proof. repeat split; vm_compute; reflexivity. Qed.

(** The whole of [akismet], pulled in one go: its 32 reviews in listing
    order, then exhaustion. *)
Example akismet_in_listing_order :
  map (fun r => match r with
                | Ok review => Some (WordpressReview.path review)
                | Raise _ => None
                end)
      (WordpressReviewsList.nexts Site.world 33 Site.akismet).1
  = (map (fun name => Some (WordpressReview.path (Site.unloaded name)))
         (Site.topic_names 1 32) ++ [None])%list.
Proof. vm_compute. reflexivity. Qed.

(** * Further properties of the sources *)

(** ** The review entity: [tag], the rating, the replies, [load] *)

Section ReviewMore.
Context (W : World).
Import bs4 WordpressReview.

(** X1: with a tag list, [tag(n)] for [n] from 1 to the number of tags is
    the tag at position [n - 1], and for a larger [n] it is [None]. *)
Theorem tag_counts_from_one (self : t) (names : list string) (n : Z) :
  tags self = Some names ->
  (1 <= n <= Py.len names ->
   exists name, names !! Z.to_nat (n - 1) = Some name
                /\ tag n self = Ok (Some name))
  /\ (Py.len names < n -> tag n self = Ok None).
Proof.
  intros Htags. unfold tag. rewrite Htags. split.
  - intros Hn. destruct names as [|name0 rest]; [unfold Py.len in Hn; simpl in Hn; lia|].
    cbv beta iota. set (names := name0 :: rest) in *.
    destruct (Z.ltb_spec (Py.len names) n); [lia|].
    assert (Hlt : (Z.to_nat (n - 1) < length names)%nat)
      by (unfold Py.len in *; lia).
    destruct (lookup_lt_is_Some_2 names _ Hlt) as [name Hname].
    exists name. split; [done|].
    unfold Py.getitem, Py.index.
    destruct (Z.ltb_spec (n - 1) 0); [lia|].
    destruct (Z.ltb_spec (n - 1) 0); [lia|].
    destruct (Z.leb_spec (Py.len names) (n - 1)); [lia|]. simpl.
    by rewrite Hname.
  - intros Hn. destruct names as [|name0 rest]; [done|].
    by destruct (Z.ltb_spec (Py.len (name0 :: rest)) n); [|lia].
Qed.

(** X2: the lower end of [tag] is not checked. With [k] tags, [tag(n)] for
    [-k < n <= 0] is the tag at position [k + n - 1] (so [tag(0)] is the last
    tag), and for [n <= -k] the subscript raises IndexError. *)
Theorem tag_below_one (self : t) (names : list string) (n : Z) :
  tags self = Some names ->
  names <> [] ->
  (- Py.len names < n <= 0 ->
   exists name, names !! Z.to_nat (Py.len names + n - 1) = Some name
                /\ tag n self = Ok (Some name))
  /\ (n <= - Py.len names -> tag n self = Raise IndexError).
Proof.
  intros Htags Hne. unfold tag. rewrite Htags.
  destruct names as [|name0 rest]; [done|].
  cbv beta iota. set (names := name0 :: rest) in *. clear Hne.
  assert (0 <= Py.len names) by (unfold Py.len; lia).
  split; intros Hn.
  - destruct (Z.ltb_spec (Py.len names) n); [lia|].
    assert (Hlt : (Z.to_nat (Py.len names + n - 1) < length names)%nat)
      by (unfold Py.len in *; lia).
    destruct (lookup_lt_is_Some_2 names _ Hlt) as [name Hname].
    exists name. split; [done|].
    unfold Py.getitem. rewrite index_from_end by lia.
    replace (n - 1 + Py.len names) with (Py.len names + n - 1) by lia.
    by rewrite Hname.
  - destruct (Z.ltb_spec (Py.len names) n); [lia|].
    unfold Py.getitem, Py.index.
    destruct (Z.ltb_spec (n - 1) 0); [|lia].
    by destruct (Z.ltb_spec (n - 1 + Py.len names) 0); [|lia].
Qed.

(** An entity without tags, or with an empty tag list, has no tag at all. *)
Lemma tag_of_no_tags (self : t) (n : Z) :
  tags self = None \/ tags self = Some [] -> tag n self = Ok None.
Proof. intros [H|H]; unfold tag; by rewrite H. Qed.

Lemma int_not_a_digit (c : ascii) :
  Py.is_digit c = false -> Py.int (String c "") = Raise ValueError.
Proof.
  destruct c as [[] [] [] [] [] [] [] []]; intros H; vm_compute in H;
    try discriminate H; reflexivity.
Qed.

(** X3: a ratings widget that is there but unusable makes the rating
    extractor raise: TypeError without a title attribute, IndexError with an
    empty title, ValueError when the title starts with an ASCII character that
    is not a digit. *)
Theorem rating_failures (soup widget : node) :
  find "div" (Some "wporg-ratings") soup = Some widget ->
  (get "title" widget = None -> _find_rating soup = Raise TypeError)
  /\ (get "title" widget = Some "" -> _find_rating soup = Raise IndexError)
  /\ (forall c rest,
        get "title" widget = Some (String c rest) ->
        (nat_of_ascii c < 128)%nat ->
        Py.is_digit c = false ->
        _find_rating soup = Raise ValueError).
Proof.
  intros Hw. unfold _find_rating. rewrite Hw. repeat split.
  - by intros ->.
  - by intros ->.
  - intros c rest -> _ Hc. simpl. by rewrite (int_not_a_digit c Hc).
Qed.

End ReviewMore.

Lemma tag_counts_from_one_witness :
  WordpressReview.tags Site.tagged = Some ["spam"; "comments"]
  /\ (exists name, ["spam"; "comments"] !! 1%nat = Some name
                   /\ WordpressReview.tag 2 Site.tagged = Ok (Some name))
  /\ WordpressReview.tag 3 Site.tagged = Ok None.
Proof.
  assert (H : WordpressReview.tags Site.tagged = Some ["spam"; "comments"])
    by reflexivity.
  split; [exact H|].
  destruct (tag_counts_from_one Site.tagged _ 2 H) as [Hin _].
  destruct (tag_counts_from_one Site.tagged _ 3 H) as [_ Hout].
  split; [apply Hin; vm_compute; split; discriminate | apply Hout; reflexivity].
Defined.

Lemma tag_below_one_witness :
  WordpressReview.tags Site.tagged = Some ["spam"; "comments"]
  /\ (exists name, ["spam"; "comments"] !! 1%nat = Some name
                   /\ WordpressReview.tag 0 Site.tagged = Ok (Some name))
  /\ WordpressReview.tag (-2) Site.tagged = Raise IndexError.
Proof.
  assert (H : WordpressReview.tags Site.tagged = Some ["spam"; "comments"])
    by reflexivity.
  split; [exact H|].
  destruct (tag_below_one Site.tagged _ 0 H) as [Hin _]; [done|].
  destruct (tag_below_one Site.tagged _ (-2) H) as [_ Hout]; [done|].
  split; [apply Hin; vm_compute; split; [reflexivity | discriminate]
         | apply Hout; vm_compute; discriminate].
Defined.

Lemma rating_failures_witness :
  bs4.find "div" (Some "wporg-ratings")
    (bs4.Tag "[document]" []
       [bs4.Tag "div" [("class", "wporg-ratings"); ("title", "no rating")] []])
  = Some (bs4.Tag "div" [("class", "wporg-ratings"); ("title", "no rating")] [])
  /\ WordpressReview._find_rating
       (bs4.Tag "[document]" []
          [bs4.Tag "div" [("class", "wporg-ratings"); ("title", "no rating")] []])
     = Raise ValueError.
Proof.
  assert (H : bs4.find "div" (Some "wporg-ratings")
    (bs4.Tag "[document]" []
       [bs4.Tag "div" [("class", "wporg-ratings"); ("title", "no rating")] []])
  = Some (bs4.Tag "div" [("class", "wporg-ratings"); ("title", "no rating")] []))
    by reflexivity.
  split; [exact H|].
  destruct (rating_failures _ _ H) as (_ & _ & Hv).
  apply (Hv "n"%char "o rating"); [reflexivity | vm_compute; lia | reflexivity].
Defined.

Section ReviewLoad.
Context (W : World).
Import bs4 WordpressReview.

(** X4: the mapping of a reply has its keys in the order [author],
    [comment], [date], each one exactly when its source element is in the
    reply block: the author span, the reply-content block, and the link
    inside the post-date paragraph. *)
Theorem reply_keys_follow_the_block (reply : node) :
  Py.keys (reply_comment W reply)
  = ((match find "span" (Some "bbp-author-name") reply with
      | Some _ => ["author"] | None => [] end)
     ++ (match find "div" (Some "bbp-reply-content") reply with
         | Some _ => ["comment"] | None => [] end)
     ++ (match find "p" (Some "bbp-reply-post-date") reply with
         | Some paragraph =>
             match find "a" None paragraph with
             | Some _ => ["date"] | None => [] end
         | None => [] end))%list.
Proof.
  unfold reply_comment.
  destruct (find "span" _ reply), (find "div" _ reply),
    (find "p" _ reply) as [paragraph|]; try reflexivity;
    destruct (find "a" None paragraph); reflexivity.
Qed.

(** X5: the reply extractor never raises and never gives an empty list:
    without a reply block it gives [None], otherwise one mapping per
    block. *)
Theorem replies_none_or_one_per_block (soup : node) :
  (exists v, _find_replies W soup = Ok v)
  /\ _find_replies W soup <> Ok (Some [])
  /\ (_find_replies W soup = Ok None <-> find_all "div" (Some "reply") soup = [])
  /\ forall entries,
       _find_replies W soup = Ok (Some entries) ->
       length entries = length (find_all "div" (Some "reply") soup).
Proof.
  unfold _find_replies.
  destruct (find_all "div" (Some "reply") soup) as [|block blocks].
  - repeat split; eauto; done.
  - repeat split; eauto; try done.
    intros entries [= <-]. simpl. by rewrite length_map.
Qed.

(** X6: the support fields are read off the support-rep block the way a
    reply is: [support] is the [author] and [support_comment] the [comment]
    that the reply mapping of that block has, and [None] where the mapping
    lacks the key. *)
Theorem support_is_the_reply_of_the_rep (soup block : node) :
  find "div" (Some "by-plugin-support-rep") soup = Some block ->
  _find_support soup
  = Ok (match Py.dict_get "author" (reply_comment W block) with
        | Some (Py.VStr name) => Some name
        | _ => None
        end)
  /\ _find_support_comment soup
     = Ok (match Py.dict_get "comment" (reply_comment W block) with
           | Some (Py.VStr words) => Some words
           | _ => None
           end).
Proof.
  intros Hblock. unfold _find_support, _find_support_comment, reply_comment.
  rewrite Hblock.
  destruct (find "span" _ block), (find "div" _ block),
    (find "p" _ block) as [paragraph|]; try (split; reflexivity);
    destruct (find "a" None paragraph); split; reflexivity.
Qed.

(** What a parse that returns has assigned. *)
Lemma review_parse_returns (soup : node) (self self' : t) :
  _parse W soup self = (Ok tt, self') ->
  self' = mk (path self) (loaded self) (title self') (date self') (tags self')
             (rating self') (author self') (text self') (replies self')
             (participants self') (comments self') (support self')
             (support_comment self')
  /\ _find_title soup = Ok (title self')
  /\ _find_date W soup = Ok (date self')
  /\ _find_tags soup = Ok (tags self')
  /\ _find_rating soup = Ok (rating self')
  /\ _find_author soup = Ok (author self')
  /\ _find_text soup = Ok (text self')
  /\ _find_replies_num soup = Ok (replies self')
  /\ _find_participants_num soup = Ok (participants self')
  /\ _find_replies W soup = Ok (comments self')
  /\ _find_support soup = Ok (support self')
  /\ _find_support_comment soup = Ok (support_comment self').
Proof.
  unfold _parse, bind, lift, assign.
  destruct (_find_title soup); [|done].
  destruct (_find_date W soup); [|done].
  destruct (_find_tags soup); [|done].
  destruct (_find_rating soup); [|done].
  destruct (_find_author soup); [|done].
  destruct (_find_text soup); [|done].
  destruct (_find_replies_num soup); [|done].
  destruct (_find_participants_num soup); [|done].
  destruct (_find_replies W soup); [|done].
  destruct (_find_support soup); [|done].
  destruct (_find_support_comment soup); [|done].
  intros [= <-]. by destruct self.
Qed.

(** A parse whose extractors all return overwrites the eleven attributes and
    nothing else. *)
Lemma review_parse_value (soup : node) (self : t) v1 v2 v3 v4 v5 v6 v7 v8 v9 v10 v11 :
  _find_title soup = Ok v1 -> _find_date W soup = Ok v2 ->
  _find_tags soup = Ok v3 -> _find_rating soup = Ok v4 ->
  _find_author soup = Ok v5 -> _find_text soup = Ok v6 ->
  _find_replies_num soup = Ok v7 -> _find_participants_num soup = Ok v8 ->
  _find_replies W soup = Ok v9 -> _find_support soup = Ok v10 ->
  _find_support_comment soup = Ok v11 ->
  _parse W soup self
  = (Ok tt, mk (path self) (loaded self) v1 v2 v3 v4 v5 v6 v7 v8 v9 v10 v11).
Proof.
  intros H1 H2 H3 H4 H5 H6 H7 H8 H9 H10 H11.
  unfold _parse, bind, lift, assign.
  rewrite H1, H2, H3, H4, H5, H6, H7, H8, H9, H10, H11. by destruct self.
Qed.

(** X7: a response with a status other than 200 makes [load] raise
    ConnectionError with that status, and the entity is left as it was. *)
Theorem load_refused (self : t) (response : httpx.Response) :
  http_get W (SCHEME +:+ BASE_URL +:+ path self) = Some response ->
  httpx.status_code response <> 200 ->
  load W self = (Raise (ConnectionError (httpx.status_code response)), self).
Proof.
  intros Hget Hstatus. unfold load, bind, get_self, lift, raise, client_get.
  rewrite Hget. by rewrite bool_decide_true.
Qed.

Lemma review_load_flag (self : t) :
  path (load W self).2 = path self
  /\ loaded (load W self).2
     = match (load W self).1 with
       | Ok _ => Some true
       | Raise _ => loaded self
       end.
Proof.
  unfold load, bind, get_self, lift, raise, assign.
  destruct (client_get W _) as [response|e]; [|done].
  case_bool_decide; [done|].
  destruct (_parse_frame W (httpx.text response) self) as [Hp Hl].
  destruct (_parse W (httpx.text response) self) as [[[]|e] s]; simpl in *;
    [by destruct s | done].
Qed.

(** X8: [load] never changes [path], and it sets [loaded] exactly when it
    returns: a load that raises, wherever it does, leaves the flag as it
    was. *)
Theorem loaded_marks_a_returned_load (self : t) :
  path (load W self).2 = path self
  /\ loaded (load W self).2
     = match (load W self).1 with
       | Ok _ => Some true
       | Raise _ => loaded self
       end.
Proof. exact (review_load_flag self). Qed.

Lemma review_load_fields (self self' : t) :
  load W self = (Ok tt, self') ->
  exists response,
    http_get W (SCHEME +:+ BASE_URL +:+ path self) = Some response
    /\ httpx.status_code response = 200
    /\ _find_title (httpx.text response) = Ok (title self')
    /\ _find_date W (httpx.text response) = Ok (date self')
    /\ _find_tags (httpx.text response) = Ok (tags self')
    /\ _find_rating (httpx.text response) = Ok (rating self')
    /\ _find_author (httpx.text response) = Ok (author self')
    /\ _find_text (httpx.text response) = Ok (text self')
    /\ _find_replies_num (httpx.text response) = Ok (replies self')
    /\ _find_participants_num (httpx.text response) = Ok (participants self')
    /\ _find_replies W (httpx.text response) = Ok (comments self')
    /\ _find_support (httpx.text response) = Ok (support self')
    /\ _find_support_comment (httpx.text response) = Ok (support_comment self').
Proof.
  unfold load, bind, get_self, lift, raise, assign, client_get.
  destruct (http_get W _) as [response|] eqn:Hget; [|done].
  case_bool_decide as Hstatus; [done|].
  destruct (_parse W (httpx.text response) self) as [[[]|e] s] eqn:Hparse; [|done].
  intros [= <-]. exists response.
  apply review_parse_returns in Hparse as (_ & Hfields).
  split; [done|].
  split; [exact Hstatus|].
  by destruct s.
Qed.

(** X9: the attributes of an entity whose [load] returned are the results
    of the eleven extractors on the body of the response, which had status
    200. *)
Theorem loaded_fields_are_the_extracted_ones (self self' : t) :
  load W self = (Ok tt, self') ->
  exists response,
    http_get W (SCHEME +:+ BASE_URL +:+ path self) = Some response
    /\ httpx.status_code response = 200
    /\ _find_title (httpx.text response) = Ok (title self')
    /\ _find_date W (httpx.text response) = Ok (date self')
    /\ _find_tags (httpx.text response) = Ok (tags self')
    /\ _find_rating (httpx.text response) = Ok (rating self')
    /\ _find_author (httpx.text response) = Ok (author self')
    /\ _find_text (httpx.text response) = Ok (text self')
    /\ _find_replies_num (httpx.text response) = Ok (replies self')
    /\ _find_participants_num (httpx.text response) = Ok (participants self')
    /\ _find_replies W (httpx.text response) = Ok (comments self')
    /\ _find_support (httpx.text response) = Ok (support self')
    /\ _find_support_comment (httpx.text response) = Ok (support_comment self').
Proof. exact (review_load_fields self self'). Qed.

(** X10: on a site that does not change, loading an entity again changes
    nothing: a second [load] after one that returned returns too and leaves
    every attribute as the first set it. *)
Theorem reload_changes_nothing (self self' : t) :
  load W self = (Ok tt, self') ->
  load W self' = (Ok tt, self').
Proof.
  intros Hload.
  pose proof (review_load_flag self) as [Hpath Hloaded].
  rewrite Hload in Hpath, Hloaded. simpl in Hpath, Hloaded.
  destruct (review_load_fields self self' Hload)
    as (response & Hget & Hstatus & H1 & H2 & H3 & H4 & H5 & H6 & H7 & H8 & H9
        & H10 & H11).
  unfold load, bind, get_self, lift, raise, assign, client_get.
  rewrite Hpath, Hget.
  rewrite bool_decide_false by (rewrite Hstatus; unfold CONNECTION_OK; intros Hne; by apply Hne).
  rewrite (review_parse_value _ self' _ _ _ _ _ _ _ _ _ _ _
             H1 H2 H3 H4 H5 H6 H7 H8 H9 H10 H11).
  destruct self'; simpl in *. by subst.
Qed.

End ReviewLoad.

Lemma support_is_the_reply_of_the_rep_witness :
  WordpressReview._find_support (Site.detail "r1") = Ok (Some "bob")
  /\ WordpressReview._find_support_comment (Site.detail "r1")
     = Ok (Some "Glad to hear it.").
Proof.
  apply (support_is_the_reply_of_the_rep Site.world (Site.detail "r1")
           (bs4.Tag "div" [("class", "reply by-plugin-support-rep")]
              [ bs4.Tag "span" [("class", "bbp-author-name")] (Site.text_of "bob");
                bs4.Tag "div" [("class", "bbp-reply-content")]
                  [bs4.Tag "p" [] (Site.text_of "Glad to hear it.")];
                bs4.Tag "p" [("class", "bbp-reply-post-date")]
                  [bs4.Tag "a" [("title", "yesterday")] (Site.text_of "1 day ago")] ])).
  reflexivity.
Defined.

Lemma load_refused_witness :
  http_get Site.world (SCHEME +:+ BASE_URL +:+ WordpressReview.path (Site.unloaded "gone"))
  = Some Site.not_found
  /\ WordpressReview.load Site.world (Site.unloaded "gone")
     = (Raise (ConnectionError 404), Site.unloaded "gone").
Proof.
  assert (H : http_get Site.world
                (SCHEME +:+ BASE_URL +:+ WordpressReview.path (Site.unloaded "gone"))
              = Some Site.not_found) by (vm_compute; reflexivity).
  split; [exact H|].
  apply (load_refused Site.world (Site.unloaded "gone") Site.not_found H).
  vm_compute; discriminate.
Defined.

Lemma loaded_fields_are_the_extracted_ones_witness :
  WordpressReview.load Site.world (Site.unloaded "r1")
  = (Ok tt, (WordpressReview.load Site.world (Site.unloaded "r1")).2)
  /\ exists response,
       http_get Site.world "https://wordpress.org/support/topic/r1/" = Some response
       /\ WordpressReview._find_title (httpx.text response) = Ok (Some "Review r1").
Proof.
  assert (H : WordpressReview.load Site.world (Site.unloaded "r1")
              = (Ok tt, (WordpressReview.load Site.world (Site.unloaded "r1")).2))
    by (vm_compute; reflexivity).
  split; [exact H|].
  destruct (loaded_fields_are_the_extracted_ones Site.world _ _ H)
    as (response & Hget & _ & Htitle & _).
  exists response. split; [exact Hget | exact Htitle].
Defined.

Lemma reload_changes_nothing_witness :
  WordpressReview.load Site.world (Site.unloaded "r1")
  = (Ok tt, (WordpressReview.load Site.world (Site.unloaded "r1")).2)
  /\ WordpressReview.load Site.world
       (WordpressReview.load Site.world (Site.unloaded "r1")).2
     = (Ok tt, (WordpressReview.load Site.world (Site.unloaded "r1")).2).
Proof.
  assert (H : WordpressReview.load Site.world (Site.unloaded "r1")
              = (Ok tt, (WordpressReview.load Site.world (Site.unloaded "r1")).2))
    by (vm_compute; reflexivity).
  split; [exact H|].
  exact (reload_changes_nothing Site.world _ _ H).
Defined.

(** ** The listing page and the cursor *)

Lemma string_app_cons (a : ascii) (s t : string) :
  String a s +:+ t = String a (s +:+ t).
Proof. reflexivity. Qed.

Lemma string_app_length (s t : string) :
  String.length (s +:+ t) = (String.length s + String.length t)%nat.
Proof. induction s as [|a s IH]; [done|]. rewrite string_app_cons. simpl. by rewrite IH. Qed.

Lemma string_app_inj_r (s1 s2 t : string) : s1 +:+ t = s2 +:+ t -> s1 = s2.
Proof.
  revert s2. induction s1 as [|a s1 IH]; intros [|b s2] H; [done|..].
  - apply (f_equal String.length) in H.
    rewrite string_app_cons in H. simpl in H. rewrite !string_app_length in H.
    simpl in H. lia.
  - apply (f_equal String.length) in H.
    rewrite string_app_cons in H. simpl in H. rewrite !string_app_length in H.
    simpl in H. lia.
  - rewrite !string_app_cons in H. injection H as -> H. f_equal. by apply IH.
Qed.

Section Listing.
Context (W : World).
Import bs4 WordpressReviewsList.

(** X11: two different page numbers never share a listing URL. *)
Theorem link_is_one_to_one (self : t) (p q : Z) :
  _link p self = _link q self -> p = q.
Proof.
  unfold _link. repeat case_bool_decide; subst; [done|..]; intros Heq;
    apply (inj (String.app _)) in Heq; apply (inj (String.app _)) in Heq.
  - exfalso. cbv [String.append] in Heq. discriminate Heq.
  - exfalso. cbv [String.append] in Heq. discriminate Heq.
  - apply (inj (String.app "/reviews/page/")) in Heq.
    apply string_app_inj_r in Heq. by apply (inj pretty).
Qed.

Lemma comprehension_all {A B} (f : A -> result B) (g : A -> B) (xs : list A) :
  (forall x, x ∈ xs -> f x = Ok (g x)) ->
  comprehension f xs = Ok (map g xs).
Proof.
  induction xs as [|x xs IH]; intros Hf; [done|]. simpl.
  rewrite (Hf x) by left. rewrite IH; [done|]. intros y Hy. apply Hf. by right.
Qed.

Lemma comprehension_anchor_missing (topics : list (option node)) :
  None ∈ topics ->
  comprehension (fun topic => match topic with
                              | Some a => Ok (get "href" a)
                              | None => Raise AttributeError
                              end) topics
  = Raise AttributeError.
Proof.
  induction topics as [|[a|] topics IH]; intros Hin.
  - by apply elem_of_nil in Hin.
  - simpl. apply elem_of_cons in Hin as [|Hin]; [done|]. by rewrite IH.
  - done.
Qed.

(** X12: a listing page on which every topic has a permalink makes one
    entity per topic, in page order, each with the path of the topic's link
    and the defaults of an unloaded entity; [more] says whether the page has
    a next-page link; nothing else of the cursor changes. *)
Theorem listing_gives_one_entity_per_topic
    (soup : node) (self : t) (anchors : list node) :
  map (find "a" (Some "bbp-topic-permalink")) (find_all "ul" (Some "topic") soup)
  = map Some anchors ->
  _parse W soup self
  = (Ok tt,
     set_more (Some (bool_decide (find "a" (Some "next page-numbers") soup <> None)))
       (set_reviews
          (map (fun a => WordpressReview.mk (urlparse_path W (get "href" a)) None
                           None None (Some []) None None None None None (Some [])
                           None None) anchors) self)).
Proof.
  intros Hanchors. unfold _parse, bind, lift, assign. rewrite Hanchors.
  rewrite (comprehension_all _ (fun topic => match topic with
                                             | Some a => get "href" a
                                             | None => None
                                             end)).
  2: { intros topic Htopic. change (topic ∈ Some <$> anchors) in Htopic.
       by apply list_elem_of_fmap in Htopic as [a [-> _]]. }
  rewrite (comprehension_all _ (fun url => WordpressReview.mk (urlparse_path W url)
                                  None None None (Some []) None None None None None
                                  (Some []) None None)).
  2: { intros url _. apply __init___plain. }
  by rewrite !map_map.
Qed.

(** X13: one topic without a permalink makes the whole listing page fail:
    the parse raises AttributeError and the cursor keeps the list it had. *)
Theorem listing_needs_every_permalink (soup : node) (self : t) :
  None ∈ map (find "a" (Some "bbp-topic-permalink"))
             (find_all "ul" (Some "topic") soup) ->
  _parse W soup self = (Raise AttributeError, self).
Proof.
  intros Hin. unfold _parse, bind, lift.
  by rewrite (comprehension_anchor_missing _ Hin).
Qed.

Lemma listing_load_refused (page : Z) (self : t) (response : httpx.Response) :
  http_get W (SCHEME +:+ BASE_URL +:+ _link page self) = Some response ->
  httpx.status_code response <> 200 ->
  load W page self = (Raise (ConnectionError (httpx.status_code response)), self).
Proof.
  intros Hget Hstatus. unfold load, bind, get_self, lift, raise, client_get.
  rewrite Hget. by rewrite bool_decide_true.
Qed.

Lemma next_refused (self : t) (response : httpx.Response) :
  page_html self !! Py.ceil_div (review_no self) 30 = None ->
  http_get W (SCHEME +:+ BASE_URL +:+ _link (Py.ceil_div (review_no self) 30) self)
  = Some response ->
  httpx.status_code response <> 200 ->
  __next__ W self
  = (Raise (ConnectionError (httpx.status_code response)),
     set_review_no (review_no self + 1) self).
Proof.
  intros Hmiss Hget Hstatus.
  rewrite __next___unfold. unfold _wp_review, bind.
  change WORDPRESS_REVIEWS_PER_PAGE with 30.
  set (self0 := set_review_no (review_no self + 1) self).
  assert (Hmiss0 : page_html self0 !! Py.ceil_div (review_no self) 30 = None)
    by (subst self0; by destruct self).
  assert (Hget0 : http_get W (SCHEME +:+ BASE_URL
                              +:+ _link (Py.ceil_div (review_no self) 30) self0)
                  = Some response)
    by (subst self0; by destruct self).
  unfold cached_page, bind, get_self. rewrite Hmiss0.
  by rewrite (listing_load_refused _ self0 response Hget0 Hstatus).
Qed.

(** X14: when the listing page of the current index is not in the cache
    and the site answers its URL with a status other than 200, [next()] raises
    ConnectionError with that status; the page is not cached, and the counter
    has advanced all the same. *)
Theorem refused_listing_is_not_cached (self : t) (response : httpx.Response) :
  page_html self !! Py.ceil_div (review_no self) 30 = None ->
  http_get W (SCHEME +:+ BASE_URL +:+ _link (Py.ceil_div (review_no self) 30) self)
  = Some response ->
  httpx.status_code response <> 200 ->
  __next__ W self
  = (Raise (ConnectionError (httpx.status_code response)),
     set_review_no (review_no self + 1) self).
Proof. exact (next_refused self response). Qed.

End Listing.

Lemma link_is_one_to_one_witness :
  WordpressReviewsList._link (1 + 1) Site.akismet
  = WordpressReviewsList._link 2 Site.akismet
  /\ 1 + 1 = 2.
Proof.
  split; [reflexivity|].
  apply (link_is_one_to_one Site.akismet (1 + 1) 2). reflexivity.
Defined.

Lemma listing_gives_one_entity_per_topic_witness :
  WordpressReviewsList._parse Site.world (Site.listing ["a"; "b"] true) Site.akismet
  = (Ok tt,
     WordpressReviewsList.mk "akismet" 1 ∅ [Site.unloaded "a"; Site.unloaded "b"]
       (Some true) None).
Proof.
  rewrite (listing_gives_one_entity_per_topic Site.world
             (Site.listing ["a"; "b"] true) Site.akismet
             [ bs4.Tag "a" [("class", "bbp-topic-permalink");
                            ("href", Site.topic_url "a")] (Site.text_of "a");
               bs4.Tag "a" [("class", "bbp-topic-permalink");
                            ("href", Site.topic_url "b")] (Site.text_of "b") ]).
  - vm_compute. reflexivity.
  - vm_compute. reflexivity.
Defined.

Lemma listing_needs_every_permalink_witness :
  WordpressReviewsList._parse Site.world Site.broken_listing Site.akismet
  = (Raise AttributeError, Site.akismet).
Proof.
  apply (listing_needs_every_permalink Site.world Site.broken_listing Site.akismet).
  vm_compute. right. left.
Defined.

Lemma refused_listing_is_not_cached_witness :
  WordpressReviewsList.__next__ Site.world (WordpressReviewsList.__init__ "no-such-plugin")
  = (Raise (ConnectionError 404),
     WordpressReviewsList.set_review_no 2 (WordpressReviewsList.__init__ "no-such-plugin")).
Proof.
  apply (refused_listing_is_not_cached Site.world
           (WordpressReviewsList.__init__ "no-such-plugin") Site.not_found).
  - reflexivity.
  - vm_compute. reflexivity.
  - vm_compute. discriminate.
Defined.

Section CursorMore.
Context (W : World).
Import WordpressReviewsList.

Lemma listing_load_set_review_no (page v : Z) (self : t) :
  load W page (set_review_no v self)
  = ((load W page self).1, set_review_no v (load W page self).2).
Proof.
  unfold load, _parse, bind, get_self, lift, raise, assign, ret.
  assert (Hl : _link page (set_review_no v self) = _link page self)
    by by destruct self.
  rewrite Hl.
  destruct (client_get W _) as [response|e]; [|done].
  case_bool_decide; [done|].
  destruct (comprehension _ _) as [urls|e]; [|done].
  destruct (comprehension _ urls) as [objects|e]; [|done].
  by destruct self.
Qed.

Lemma cached_page_set_review_no (page v : Z) (self : t) :
  cached_page W page (set_review_no v self)
  = ((cached_page W page self).1, set_review_no v (cached_page W page self).2).
Proof.
  unfold cached_page, bind, get_self, ret, assign.
  assert (Hp : page_html (set_review_no v self) = page_html self)
    by by destruct self.
  rewrite Hp. destruct (page_html self !! page); [done|].
  rewrite listing_load_set_review_no.
  destruct (load W page self) as [[l|e] self']; simpl; [|done].
  by destruct self'.
Qed.

(** Pages in the cache stay there when another page is looked up. *)
Lemma cached_page_keeps (page q : Z) (self : t) entities :
  page_html self !! q = Some entities ->
  page_html (cached_page W page self).2 !! q = Some entities.
Proof.
  intros Hq. unfold cached_page, bind, get_self, ret, assign.
  destruct (page_html self !! page) eqn:Hpage; [done|].
  destruct (listing_load_frame W page self) as [_ Hpages].
  destruct (load W page self) as [[l|e] self']; simpl in *.
  - destruct self'; simpl in *. subst. rewrite lookup_insert_ne; [done|].
    intros ->. congruence.
  - by rewrite Hpages.
Qed.

Lemma load_entity_pages (page : Z) (j : nat) review (self : t) :
  page_html (load_entity W page j review self).2
  = alter (fun l => <[j := (WordpressReview.load W review).2]> l) page (page_html self).
Proof.
  unfold load_entity. destruct (WordpressReview.load W review). by destruct self.
Qed.

(** Once its page is available, a call either signals exhaustion or takes
    an entity that is on the page: the subscript is never out of range. *)
Lemma _wp_review_cases (number : Z) (self self1 : t) entities :
  cached_page W (Py.ceil_div number 30) self = (Ok entities, self1) ->
  _wp_review W number self = (Raise StopIteration, self1)
  \/ exists j review,
       entities !! j = Some review
       /\ _wp_review W number self
          = load_entity W (Py.ceil_div number 30) j review self1.
Proof.
  intros Hcached. unfold _wp_review, bind, raise.
  change WORDPRESS_REVIEWS_PER_PAGE with 30. rewrite Hcached.
  set (page := Py.ceil_div number 30) in *.
  assert (Hb : 30 * (page - 1) < number <= 30 * page) by by apply ceil_div_page.
  assert (0 <= Py.len entities) by (unfold Py.len; lia).
  set (review_no := if Py.len entities <? 30
                    then number - page * 30 + (30 - Py.len entities)
                    else number - page * 30).
  assert (Hno : - Py.len entities < review_no).
  { unfold review_no. destruct (Z.ltb_spec (Py.len entities) 30); lia. }
  destruct (Z.ltb_spec 0 review_no); [by left|]. right.
  rewrite index_from_end by lia.
  assert (Hj : (Z.to_nat (review_no - 1 + Py.len entities) < length entities)%nat)
    by (unfold Py.len in *; lia).
  destruct (lookup_lt_is_Some_2 entities _ Hj) as [review Hreview].
  exists (Z.to_nat (review_no - 1 + Py.len entities)), review.
  by rewrite Hreview.
Qed.


(** X16: a listing page with more than thirty topics, [30 + m] of them, is
    read from its end: the [j]-th index of the page takes position
    [m + j - 1], so the first [m] topics are never taken. *)
Theorem crowded_page_is_read_from_its_end
    (self self1 : t) (entities : list WordpressReview.t) (q j m : Z) :
  cached_page W q self = (Ok entities, self1) ->
  Py.len entities = 30 + m ->
  0 <= m ->
  1 <= j <= 30 ->
  exists review,
    entities !! Z.to_nat (m + j - 1) = Some review
    /\ _wp_review W (30 * (q - 1) + j) self
       = load_entity W q (Z.to_nat (m + j - 1)) review self1.
Proof.
  intros Hcached Hlen Hm Hj.
  assert (Hpage : Py.ceil_div (30 * (q - 1) + j) 30 = q)
    by (apply ceil_div_page; lia).
  assert (Hlt : (Z.to_nat (m + j - 1) < length entities)%nat)
    by (unfold Py.len in *; lia).
  destruct (lookup_lt_is_Some_2 entities _ Hlt) as [review Hreview].
  exists review. split; [done|].
  unfold _wp_review, bind, raise. change WORDPRESS_REVIEWS_PER_PAGE with 30.
  rewrite Hpage, Hcached.
  destruct (Z.ltb_spec (Py.len entities) 30); [lia|].
  destruct (Z.ltb_spec 0 (30 * (q - 1) + j - q * 30)); [lia|].
  rewrite index_from_end by lia.
  replace (Z.to_nat (30 * (q - 1) + j - q * 30 - 1 + Py.len entities))
    with (Z.to_nat (m + j - 1)) by lia.
  by rewrite Hreview.
Qed.

(** X17: a review that [next()] returns has been loaded ([loaded] is
    true), and it is the object that the cache holds on the page of its
    index. *)
Theorem returned_review_is_loaded (self : t) (review : WordpressReview.t) :
  (__next__ W self).1 = Ok review ->
  WordpressReview.loaded review = Some true
  /\ exists entities j,
       page_html (__next__ W self).2 !! Py.ceil_div (review_no self) 30
       = Some entities
       /\ entities !! j = Some review.
Proof.
  rewrite __next___unfold.
  set (self0 := set_review_no (review_no self + 1) self).
  set (page := Py.ceil_div (review_no self) 30).
  destruct (cached_page W page self0) as [[entities|e] self1] eqn:Hcached.
  2: { unfold _wp_review, bind. change WORDPRESS_REVIEWS_PER_PAGE with 30.
       fold page. by rewrite Hcached. }
  subst page.
  destruct (_wp_review_cases _ _ _ _ Hcached) as [Hstop|(j & item & Hitem & Hcall)].
  { by rewrite Hstop. }
  rewrite Hcall, load_entity_pages. intros Hok.
  unfold load_entity in Hok.
  pose proof (review_load_flag W item) as [_ Hflag].
  destruct (WordpressReview.load W item) as [[[]|e] item']; simpl in *; [|done].
  injection Hok as ->. split; [done|].
  exists (<[j := review]> entities), j. split.
  - rewrite lookup_alter_eq.
    by rewrite (cached_page_cached W _ self0 _ _ Hcached).
  - apply list_lookup_insert_eq. by apply lookup_lt_is_Some_1; eauto.
Qed.

(** X18: the cache only grows. A page that is in the cache before a call
    of [next()] is in it afterwards, with as many entities and the same
    paths in the same order. *)
Theorem cache_keeps_its_pages (self : t) (q : Z) entities :
  page_html self !! q = Some entities ->
  exists entities',
    page_html (__next__ W self).2 !! q = Some entities'
    /\ map WordpressReview.path entities' = map WordpressReview.path entities.
Proof.
  intros Hq. rewrite __next___unfold.
  set (self0 := set_review_no (review_no self + 1) self).
  set (page := Py.ceil_div (review_no self) 30).
  assert (Hq0 : page_html self0 !! q = Some entities)
    by (subst self0; by destruct self).
  pose proof (cached_page_keeps page q self0 entities Hq0) as Hkept.
  destruct (cached_page W page self0) as [[listed|e] self1] eqn:Hcached.
  2: { unfold _wp_review, bind. change WORDPRESS_REVIEWS_PER_PAGE with 30.
       fold page. rewrite Hcached. by exists entities. }
  simpl in Hkept. subst page.
  destruct (_wp_review_cases _ _ _ _ Hcached) as [Hstop|(j & item & Hitem & Hcall)].
  { rewrite Hstop. by exists entities. }
  rewrite Hcall, load_entity_pages.
  destruct (decide (Py.ceil_div (review_no self) 30 = q)) as [Heq|Hne].
  - rewrite Heq in *. rewrite lookup_alter_eq, Hkept. simpl. eexists. split; [done|].
    apply cached_page_cached in Hcached. rewrite Hkept in Hcached.
    injection Hcached as <-.
    change (map ?f ?l) with (f <$> l). rewrite list_fmap_insert.
    apply list_insert_id. rewrite list_lookup_fmap, Hitem. simpl. f_equal.
    by destruct (review_load_flag W item) as [-> _].
  - rewrite lookup_alter_ne by done. by exists entities.
Qed.

(** A call that has to fetch its page behaves like the call made once the
    page is in the cache. *)
Lemma next_after_fetch (self fetched : t) entities :
  cached_page W (Py.ceil_div (review_no self) 30) self = (Ok entities, fetched) ->
  __next__ W self = __next__ W fetched.
Proof.
  intros Hcached.
  pose proof (cached_page_frame W (Py.ceil_div (review_no self) 30) self) as Hno.
  rewrite Hcached in Hno. simpl in Hno.
  rewrite !__next___unfold, Hno.
  unfold _wp_review, bind. change WORDPRESS_REVIEWS_PER_PAGE with 30.
  rewrite !cached_page_set_review_no, Hcached.
  by rewrite (cached_page_hit W _ fetched entities
                (cached_page_cached W _ _ _ _ Hcached)).
Qed.

Lemma nexts_after_fetch (n : nat) (self fetched : t) entities :
  cached_page W (Py.ceil_div (review_no self) 30) self = (Ok entities, fetched) ->
  (nexts W n self).1 = (nexts W n fetched).1.
Proof.
  intros Hcached. destruct n as [|n]; [done|]. simpl.
  by rewrite (next_after_fetch self fetched entities Hcached).
Qed.

Lemma nexts_app (n m : nat) (self : t) :
  (nexts W (n + m) self).1
  = ((nexts W n self).1 ++ (nexts W m (nexts W n self).2).1)%list.
Proof.
  revert self. induction n as [|n IH]; intros self; [done|]. simpl.
  destruct (__next__ W self) as [r self1]. specialize (IH self1).
  destruct (nexts W (n + m) self1), (nexts W n self1). simpl in *.
  by rewrite IH.
Qed.

(** The calls that walk over the rest of a cached page of at most thirty,
    when every load returns. *)
Lemma run_of_page (page : Z) (todo : list WordpressReview.t) :
  forall (finished : list WordpressReview.t) (self : t),
    page_html self !! page = Some (finished ++ todo)%list ->
    review_no self = 30 * (page - 1) + Py.len finished + 1 ->
    Py.len (finished ++ todo)%list <= 30 ->
    Forall (fun e => (WordpressReview.load W e).1 = Ok tt) todo ->
    (nexts W (length todo) self).1
    = map (fun e => Ok (WordpressReview.load W e).2) todo
    /\ page_html (nexts W (length todo) self).2 !! page
       = Some (finished ++ map (fun e => (WordpressReview.load W e).2) todo)%list
    /\ review_no (nexts W (length todo) self).2
       = review_no self + Py.len todo.
Proof.
  induction todo as [|e todo IH]; intros finished self Hcached Hno Hlen Hloads.
  { simpl. rewrite app_nil_r in *. unfold Py.len. simpl. split; [done|].
    split; [done | lia]. }
  apply Forall_cons in Hloads as [Hload Hloads].
  assert (Hlens : Py.len (finished ++ e :: todo)%list
                  = Py.len finished + 1 + Py.len todo).
  { unfold Py.len. rewrite length_app. simpl. lia. }
  assert (0 <= Py.len finished /\ 0 <= Py.len todo) as [??]
    by (unfold Py.len; lia).
  simpl. rewrite __next___unfold.
  set (self0 := set_review_no (review_no self + 1) self).
  assert (Hcached0 : page_html self0 !! page = Some (finished ++ e :: todo)%list)
    by (subst self0; by destruct self).
  destruct (_wp_review_select W (review_no self) page self0 self0
              (finished ++ e :: todo)%list)
    as (review & Hreview & Hcall);
    [apply ceil_div_page; lia | by apply cached_page_hit | lia | lia |].
  replace (Z.to_nat (review_no self - 30 * (page - 1) - 1))
    with (length finished + 0)%nat in * by (unfold Py.len in *; lia).
  rewrite lookup_app_r, Nat.add_comm, Nat.add_sub in Hreview by lia.
  simpl in Hreview. injection Hreview as <-.
  rewrite Hcall.
  pose proof (load_entity_pages page (length finished + 0) e self0) as Hpages.
  pose proof (load_entity_frame W page (length finished + 0) e self0) as Hframe.
  unfold load_entity in *.
  destruct (WordpressReview.load W e) as [r e'] eqn:He. simpl in Hload. subst r.
  simpl in Hpages, Hframe.
  set (self1 := set_page_html _ self0) in *.
  assert (Hcached1 : page_html self1 !! page
                     = Some ((finished ++ [e']) ++ todo)%list).
  { rewrite Hpages, lookup_alter_eq, Hcached0. simpl. f_equal.
    rewrite insert_app_r. simpl. by rewrite <- app_assoc. }
  assert (Hno1 : review_no self1 = 30 * (page - 1) + Py.len (finished ++ [e'])%list + 1).
  { rewrite Hframe. subst self0. unfold Py.len. rewrite length_app. simpl.
    unfold Py.len in Hno. destruct self. simpl in *. lia. }
  assert (Hlen1 : Py.len ((finished ++ [e']) ++ todo)%list <= 30).
  { unfold Py.len in *. rewrite !length_app in *. simpl in *. lia. }
  destruct (IH (finished ++ [e'])%list self1 Hcached1 Hno1 Hlen1 Hloads)
    as (Hrs & Hpage & Hcount).
  destruct (nexts W (length todo) self1) as [rs self2]. simpl in *.
  split; [by rewrite Hrs|]. split.
  - by rewrite Hpage, <- app_assoc.
  - rewrite Hcount, Hframe. subst self0. unfold Py.len. simpl.
    destruct self. simpl. lia.
Qed.

(** X19: a cursor that stands at the first index of a page of at most
    thirty entities, all of which load, returns them one per call in listing
    order, each loaded; when the page has fewer than thirty, the call after
    the last raises StopIteration. *)
Theorem page_is_returned_in_listing_order
    (self fetched : t) (entities : list WordpressReview.t) (p : Z) :
  review_no self = 30 * (p - 1) + 1 ->
  cached_page W p self = (Ok entities, fetched) ->
  Py.len entities <= 30 ->
  Forall (fun e => (WordpressReview.load W e).1 = Ok tt) entities ->
  (nexts W (length entities) self).1
  = map (fun e => Ok (WordpressReview.load W e).2) entities
  /\ (Py.len entities < 30 ->
      (nexts W (length entities + 1) self).1
      = (map (fun e => Ok (WordpressReview.load W e).2) entities
         ++ [Raise StopIteration])%list).
Proof.
  intros Hno Hcached Hlen Hloads.
  assert (Hpage : Py.ceil_div (review_no self) 30 = p)
    by (apply ceil_div_page; lia).
  rewrite <- Hpage in Hcached.
  rewrite !(nexts_after_fetch _ self fetched entities Hcached).
  pose proof (cached_page_frame W (Py.ceil_div (review_no self) 30) self) as Hno'.
  rewrite Hcached in Hno'. simpl in Hno'.
  apply cached_page_cached in Hcached. rewrite Hpage in Hcached.
  destruct (run_of_page p entities [] fetched) as (Hrs & Hpages & Hcount);
    [done | unfold Py.len; simpl; lia | done | done |].
  split; [done|]. intros Hshort.
  rewrite nexts_app, Hrs. f_equal.
  set (final := (nexts W (length entities) fetched).2) in *.
  simpl. rewrite __next___unfold.
  set (final0 := set_review_no (review_no final + 1) final).
  assert (Hpages0 : page_html final0 !! p
                    = Some (map (fun e => (WordpressReview.load W e).2) entities))
    by (subst final0; destruct final; simpl in *; done).
  rewrite (_wp_review_beyond W (review_no final) p final0 final0
             (map (fun e => (WordpressReview.load W e).2) entities));
    [done | | by apply cached_page_hit | |].
  - apply ceil_div_page. unfold Py.len in *. lia.
  - unfold Py.len in *. rewrite length_map. lia.
  - unfold Py.len in *. rewrite length_map. lia.
Qed.

End CursorMore.


Lemma crowded_page_is_read_from_its_end_witness :
  WordpressReviewsList.cached_page Site.world 1 Site.crowded
  = (Ok Site.crowded_page, Site.crowded)
  /\ Py.len Site.crowded_page = 30 + 1
  /\ exists review,
       Site.crowded_page !! 1%nat = Some review
       /\ WordpressReview.path review = "/support/topic/r2/"
       /\ WordpressReviewsList._wp_review Site.world 1 Site.crowded
          = WordpressReviewsList.load_entity Site.world 1 1 review Site.crowded.
Proof.
  assert (H : WordpressReviewsList.cached_page Site.world 1 Site.crowded
              = (Ok Site.crowded_page, Site.crowded)) by (vm_compute; reflexivity).
  split; [exact H|]. split; [reflexivity|].
  destruct (crowded_page_is_read_from_its_end Site.world _ _ _ 1 1 1 H)
    as (review & Hreview & Hcall); [reflexivity | lia | lia |].
  exists review. split; [exact Hreview|]. split; [|exact Hcall].
  vm_compute in Hreview. by injection Hreview as <-.
Defined.

Lemma returned_review_is_loaded_witness :
  (WordpressReviewsList.__next__ Site.world Site.akismet).1
  = Ok (WordpressReview.load Site.world (Site.unloaded "r1")).2
  /\ WordpressReview.loaded (WordpressReview.load Site.world (Site.unloaded "r1")).2
     = Some true.
Proof.
  assert (H : (WordpressReviewsList.__next__ Site.world Site.akismet).1
              = Ok (WordpressReview.load Site.world (Site.unloaded "r1")).2)
    by (vm_compute; reflexivity).
  split; [exact H|].
  exact (proj1 (returned_review_is_loaded Site.world _ _ H)).
Defined.

Lemma cache_keeps_its_pages_witness :
  WordpressReviewsList.page_html Site.crowded !! 1 = Some Site.crowded_page
  /\ exists entities',
       WordpressReviewsList.page_html
         (WordpressReviewsList.__next__ Site.world Site.crowded).2 !! 1
       = Some entities'
       /\ map WordpressReview.path entities'
          = map WordpressReview.path Site.crowded_page.
Proof.
  assert (H : WordpressReviewsList.page_html Site.crowded !! 1
              = Some Site.crowded_page) by (vm_compute; reflexivity).
  split; [exact H|].
  exact (cache_keeps_its_pages Site.world _ _ _ H).
Defined.

Lemma page_is_returned_in_listing_order_witness :
  WordpressReviewsList.cached_page Site.world 1
    (WordpressReviewsList.__init__ "hello-dolly")
  = (Ok [Site.unloaded "h1"],
     (WordpressReviewsList.cached_page Site.world 1
        (WordpressReviewsList.__init__ "hello-dolly")).2)
  /\ (WordpressReviewsList.nexts Site.world 1
        (WordpressReviewsList.__init__ "hello-dolly")).1
     = [Ok (WordpressReview.load Site.world (Site.unloaded "h1")).2]
  /\ (WordpressReviewsList.nexts Site.world 2
        (WordpressReviewsList.__init__ "hello-dolly")).1
     = [Ok (WordpressReview.load Site.world (Site.unloaded "h1")).2;
        Raise StopIteration].
Proof.
  assert (H : WordpressReviewsList.cached_page Site.world 1
                (WordpressReviewsList.__init__ "hello-dolly")
              = (Ok [Site.unloaded "h1"],
                 (WordpressReviewsList.cached_page Site.world 1
                    (WordpressReviewsList.__init__ "hello-dolly")).2))
    by (vm_compute; reflexivity).
  split; [exact H|].
  assert (H0 : WordpressReviewsList.review_no
                 (WordpressReviewsList.__init__ "hello-dolly") = 30 * (1 - 1) + 1)
    by reflexivity.
  destruct (page_is_returned_in_listing_order Site.world _ _ _ 1 H0 H)
    as [Hall Hend].
  - vm_compute. discriminate.
  - repeat constructor.
  - split; [exact Hall | apply Hend; reflexivity].
Defined.

(** ** The aggregator, further *)

Section AggregatorMore.
Context (W : World).
Import WordpressReviews.

Lemma init_cursors (names : list string) (p : string) :
  forall lists : gmap string WordpressReviewsList.t,
    foldl (fun lists plugin => <[plugin := WordpressReviewsList.__init__ plugin]> lists)
          lists names !! p
    = if decide (p ∈ names) then Some (WordpressReviewsList.__init__ p)
      else lists !! p.
Proof.
  induction names as [|name names IH]; intros lists; cbn [foldl].
  - case_decide as Hin; [by apply elem_of_nil in Hin | done].
  - rewrite IH. destruct (decide (p ∈ names)) as [Hin|Hout].
    + case_decide as Hin'; [done|]. destruct Hin'. by right.
    + destruct (decide (p = name)) as [->|Hne].
      * case_decide as Hin'; [apply lookup_insert_eq|]. destruct Hin'. left.
      * case_decide as Hin'; [|by apply lookup_insert_ne].
        apply elem_of_cons in Hin' as [|]; done.
Qed.

(** X20: the constructor gives every requested plugin a cursor that stands
    at review 1 with an empty cache, and no other name has one; a name listed
    twice has one cursor. A single name is the list of that name. *)
Theorem every_plugin_gets_a_fresh_cursor (names : list string) (n : Z) (p : string) :
  reviews_lists (__init__ (inr names) n) !! p
  = (if decide (p ∈ names) then Some (WordpressReviewsList.__init__ p) else None)
  /\ __init__ (inl p) n = __init__ (inr [p]) n.
Proof. split; [|done]. unfold __init__. simpl. by rewrite init_cursors. Qed.

Lemma pull_frame (plugin : string) (n : nat) (self : t) :
  number (pull W plugin n self).2 = number self
  /\ plugins (pull W plugin n self).2 = plugins self.
Proof.
  revert self. induction n as [|n IH]; intros self; [done|]. simpl.
  unfold next_of.
  destruct (reviews_lists self !! plugin) as [cursor|]; [|done].
  destruct (WordpressReviewsList.__next__ W cursor) as [[review|e] cursor'];
    [|by destruct self].
  specialize (IH (set_reviews_lists (<[plugin:=cursor']> (reviews_lists self)) self)).
  destruct (pull W plugin n _) as [[records r] self'']. simpl in *.
  by destruct self.
Qed.

(** What the quota loop of one plugin yields: at most [n] records, all with
    the thirteen keys and the plugin's name. *)
Lemma pull_records (plugin : string) (n : nat) (self : t) :
  (length (pull W plugin n self).1.1 <= n)%nat
  /\ Forall (fun record =>
       Py.keys record
       = ["path"; "title"; "date"; "tags"; "rating"; "author"; "text";
          "replies"; "participants"; "comments"; "support"; "support_comment";
          "plugin"]
       /\ Py.dict_get "plugin" record = Some (Py.VStr plugin))
     (pull W plugin n self).1.1.
Proof.
  revert self. induction n as [|n IH]; intros self; simpl.
  { split; [done | constructor]. }
  destruct (next_of W plugin self) as [[review|e] self']; simpl.
  2: { split; [lia | constructor]. }
  specialize (IH self').
  destruct (pull W plugin n self') as [[records r] self'']. simpl in *.
  destruct IH as [Hlen Hall]. split; [lia|].
  constructor; [|done]. split; reflexivity.
Qed.

(** X21: with a quota of zero or less the run yields nothing, fetches
    nothing and leaves every cursor where it was. *)
Theorem no_quota_no_records (self : t) :
  number self <= 0 -> reviews W self = (([], Ok tt), self).
Proof.
  intros Hn. unfold reviews.
  assert (Hq : Py.range_len (number self) = 0%nat) by (unfold Py.range_len; lia).
  induction (plugins self) as [|plugin todo IH]; [done|].
  simpl. rewrite Hq. simpl. by rewrite IH.
Qed.

(** X22: every record of a run has the twelve keys of [to_dict] followed by
    [plugin], and its [plugin] value is one of the requested names. *)
Theorem records_carry_their_plugin (self : t) :
  Forall (fun record =>
     Py.keys record
     = ["path"; "title"; "date"; "tags"; "rating"; "author"; "text";
        "replies"; "participants"; "comments"; "support"; "support_comment";
        "plugin"]
     /\ exists plugin, plugin ∈ plugins self
                       /\ Py.dict_get "plugin" record = Some (Py.VStr plugin))
   (reviews W self).1.1.
Proof.
  unfold reviews. generalize (plugins self) as todo. intros todo. revert self.
  induction todo as [|plugin todo IH]; intros self; simpl; [constructor|].
  destruct (pull_records plugin (Py.range_len (number self)) self) as [_ Hall].
  assert (Hhere : Forall (fun record =>
       Py.keys record
       = ["path"; "title"; "date"; "tags"; "rating"; "author"; "text";
          "replies"; "participants"; "comments"; "support"; "support_comment";
          "plugin"]
       /\ exists name, name ∈ plugin :: todo
                       /\ Py.dict_get "plugin" record = Some (Py.VStr name))
     (pull W plugin (Py.range_len (number self)) self).1.1).
  { eapply Forall_impl; [exact Hall|]. intros record [Hk Hp].
    split; [done|]. exists plugin. split; [left | done]. }
  destruct (pull W plugin (Py.range_len (number self)) self)
    as [[records [[]|e]] self']; simpl in *.
  - specialize (IH self').
    destruct (reviews_loop W todo self') as [[records' r] self'']. simpl in *.
    apply Forall_app. split; [done|].
    eapply Forall_impl; [exact IH|]. intros record (Hk & name & Hin & Hp).
    split; [done|]. exists name. split; [by right | done].
  - by destruct e.
Qed.

Lemma pull_tags (plugin : string) (n : nat) (self : t) :
  map (Py.dict_get "plugin") (pull W plugin n self).1.1
  = replicate (length (pull W plugin n self).1.1) (Some (Py.VStr plugin)).
Proof.
  destruct (pull_records plugin n self) as [_ Hall].
  induction Hall as [|record records [_ Hp] _ IH]; [done|].
  simpl. by rewrite Hp, IH.
Qed.

(** X23: the records of a run come in blocks, one block per plugin in the
    order of the request, never interleaved, each block no longer than the
    quota: the [plugin] values of the records are [c1] times the first name,
    then [c2] times the second, and so on, for some counts [c1, c2, ...] up
    to the quota. *)
Theorem records_come_in_request_order (self : t) :
  exists counts : list nat,
    (length counts <= length (plugins self))%nat
    /\ Forall (fun c => (c <= Py.range_len (number self))%nat) counts
    /\ map (Py.dict_get "plugin") (reviews W self).1.1
       = concat (zip_with (fun c plugin => replicate c (Some (Py.VStr plugin)))
                          counts (plugins self)).
Proof.
  unfold reviews. generalize (plugins self) as todo. intros todo. revert self.
  induction todo as [|plugin todo IH]; intros self; simpl.
  { exists []. split; [done|]. split; [constructor | done]. }
  destruct (pull_records plugin (Py.range_len (number self)) self) as [Hlen _].
  pose proof (pull_tags plugin (Py.range_len (number self)) self) as Htags.
  destruct (pull_frame plugin (Py.range_len (number self)) self) as [Hnum _].
  destruct (pull W plugin (Py.range_len (number self)) self)
    as [[records [[]|e]] self']; simpl in *.
  - destruct (IH self') as (counts & Hcounts & Hle & Hblocks).
    destruct (reviews_loop W todo self') as [[records' r] self'']. simpl in *.
    exists (length records :: counts). split; [simpl; lia|]. split.
    + constructor; [done|]. by rewrite <- Hnum.
    + simpl. by rewrite map_app, Htags, Hblocks.
  - exists [length records]. split; [simpl; lia|]. split.
    + by repeat constructor.
    + destruct e; simpl; rewrite Htags; destruct todo; simpl;
        by rewrite app_nil_r.
Qed.

(** X24: a run never ends in StopIteration: the exhaustion of a cursor is
    caught inside the generator and does not reach its consumer. *)
Theorem exhaustion_never_leaves_the_run (self : t) :
  (reviews W self).1.2 <> Raise StopIteration.
Proof.
  unfold reviews. generalize (plugins self) as todo. intros todo. revert self.
  induction todo as [|plugin todo IH]; intros self; simpl; [done|].
  destruct (pull W plugin (Py.range_len (number self)) self)
    as [[records [[]|e]] self']; simpl.
  - specialize (IH self').
    by destruct (reviews_loop W todo self') as [[records' r] self''].
  - by destruct e.
Qed.

(** X25: when the site answers the first listing page of the first plugin
    with a status other than 200, a run with a positive quota yields no
    record and ends in ConnectionError with that status; no later plugin is
    visited. *)
Theorem refused_listing_ends_the_run
    (p : string) (others : list string) (n : Z) (response : httpx.Response) :
  0 < n ->
  http_get W (SCHEME +:+ BASE_URL +:+ "/support/plugin/" +:+ p +:+ "/reviews/")
  = Some response ->
  httpx.status_code response <> 200 ->
  (reviews W (__init__ (inr (p :: others)) n)).1
  = ([], Raise (ConnectionError (httpx.status_code response))).
Proof.
  intros Hn Hget Hstatus. unfold reviews.
  set (self := __init__ (inr (p :: others)) n).
  assert (Hcursor : reviews_lists self !! p = Some (WordpressReviewsList.__init__ p)).
  { subst self. unfold __init__. cbn [reviews_lists]. rewrite init_cursors.
    by rewrite decide_True by left. }
  change (plugins self) with (p :: others). cbn [reviews_loop].
  change (number self) with n.
  destruct (Py.range_len n) as [|k] eqn:Hk; [unfold Py.range_len in Hk; lia|].
  cbn [pull]. unfold next_of. rewrite Hcursor.
  rewrite (next_refused W (WordpressReviewsList.__init__ p) response);
    [done | done | exact Hget | done].
Qed.

End AggregatorMore.

Lemma no_quota_no_records_witness :
  WordpressReviews.number (WordpressReviews.__init__ (inr ["akismet"]) 0) <= 0
  /\ WordpressReviews.reviews Site.world (WordpressReviews.__init__ (inr ["akismet"]) 0)
     = (([], Ok tt), WordpressReviews.__init__ (inr ["akismet"]) 0).
Proof.
  assert (H : WordpressReviews.number
                (WordpressReviews.__init__ (inr ["akismet"]) 0) <= 0)
    by (vm_compute; discriminate).
  split; [exact H|].
  exact (no_quota_no_records Site.world _ H).
Defined.

Lemma refused_listing_ends_the_run_witness :
  http_get Site.world
    (SCHEME +:+ BASE_URL +:+ "/support/plugin/" +:+ "no-such-plugin" +:+ "/reviews/")
  = Some Site.not_found
  /\ (WordpressReviews.reviews Site.world
        (WordpressReviews.__init__ (inr ["no-such-plugin"; "akismet"]) 2)).1
     = ([], Raise (ConnectionError 404)).
Proof.
  assert (H : http_get Site.world
                (SCHEME +:+ BASE_URL +:+ "/support/plugin/" +:+ "no-such-plugin"
                 +:+ "/reviews/")
              = Some Site.not_found) by (vm_compute; reflexivity).
  split; [exact H|].
  apply (refused_listing_ends_the_run Site.world "no-such-plugin" ["akismet"] 2
           Site.not_found); [lia | exact H | vm_compute; discriminate].
Defined.
